(** * SmartAPI registry: request handlers and the MetaKG search mapping

    A shallow embedding of [src/handlers/api.py] (the registry handlers
    [SmartAPIHandler], [UptimeHandler] and [MetaKGQueryHandler]) and of
    [src/model/metakg.py] (the Elasticsearch mapping of [MetaKGDoc]).

    The handlers are Python coroutines that read and write a document store,
    raise exceptions and finish a response.  They are embedded in a small
    state-and-exception monad over a [World]: the store, a log of the
    effectful calls that were made, and the reply written so far.  The
    [controller] package, [utils.downloader] and the [bmt] toolkit, which the
    handlers call, are an interface ([Controller]) the handlers are
    parametric in. *)

From Stdlib Require Import ZArith String Ascii List Bool Lia.
From stdpp Require Import gmap strings list fin_maps option.

Local Open Scope Z_scope.
Local Open Scope string_scope.
Local Open Scope list_scope.

(** ** Strings *)

Module Str.

(** A [str] is held as its bytes. On a [str] of ASCII characters
    [str.lower()] lowers the letters A-Z and leaves the rest. *)
Definition lower_ascii (c : ascii) : ascii :=
  let n := N_of_ascii c in
  if ((65 <=? n) && (n <=? 90))%N then ascii_of_N (n + 32) else c.

Fixpoint ascii_lower (s : string) : string :=
  match s with
  | EmptyString => EmptyString
  | String c s' => String (lower_ascii c) (ascii_lower s')
  end.

Fixpoint is_ascii (s : string) : bool :=
  match s with
  | EmptyString => true
  | String c s' => (N_of_ascii c <? 128)%N && is_ascii s'
  end.

(** [s.lower()]. For a [str] with a character outside ASCII the result is
    given by the Unicode case mapping of the runtime, [unicode_lower], which
    is not tabulated here. *)
Definition lower (unicode_lower : string -> string) (s : string) : string :=
  if is_ascii s then ascii_lower s else unicode_lower s.

(** Truth value of a Python [str]: only the empty string is falsy. *)
Definition truthy (s : string) : bool :=
  match s with
  | EmptyString => false
  | String _ _ => true
  end.

(** [needle in hay] *)
Definition occurs_in (needle hay : string) : Prop :=
  exists before after, hay = before +:+ needle +:+ after.

End Str.

(** ** Values written to a response *)

Inductive JVal : Type :=
| JNull
| JBool (b : bool)
| JInt (n : Z)
| JStr (s : string).

(** A response body is a Python dict literal: its keys in order. *)
Definition Payload : Type := list (string * JVal).

Fixpoint payload_get (k : string) (p : Payload) : option JVal :=
  match p with
  | [] => None
  | (k', v) :: p' => if String.eqb k k' then Some v else payload_get k p'
  end.

(** ** Exceptions of the handlers *)

Inductive Exc : Type :=
| HTTPError (code : Z) (reason : option string)   (* tornado.web.HTTPError *)
| Finish (body : Payload)                         (* tornado.web.Finish *)
| NotFoundError                                   (* controller.exceptions *)
| ControllerError (msg : string)
| DownloadError (msg : string)                    (* utils.downloader *)
| ValueError (msg : string)
| AssertionError (msg : string).

(** [str(err)] *)
Definition exc_str (e : Exc) : string :=
  match e with
  | HTTPError _ (Some r) => r
  | HTTPError _ None => ""
  | Finish _ => ""
  | NotFoundError => ""
  | ControllerError m | DownloadError m | ValueError m | AssertionError m => m
  end.

(** [isinstance(e, ControllerError)]: [NotFoundError] is one of its
    subclasses. *)
Definition is_ControllerError (e : Exc) : bool :=
  match e with
  | ControllerError _ | NotFoundError => true
  | _ => false
  end.

Definition is_NotFoundError (e : Exc) : bool :=
  match e with NotFoundError => true | _ => false end.

Definition is_ValueError (e : Exc) : bool :=
  match e with ValueError _ => true | _ => false end.

Definition is_AssertionError (e : Exc) : bool :=
  match e with AssertionError _ => true | _ => false end.

Definition is_DownloadError (e : Exc) : bool :=
  match e with DownloadError _ => true | _ => false end.

(** ** Registry entries and downloaded files *)

(** A [controller.SmartAPI] object, with the attributes the handlers read
    and write. [webstatus] and [webcode] are the status fields kept in its
    [webdoc]. *)
Record SmartAPI : Type := mkSmartAPI {
  _id : string;
  url : string;
  username : string;
  slug : option string;
  raw : string;
  version : string;
  webstatus : string;
  webcode : option Z
}.

(** What [download_async] returns: the status code of the response, or
    none when there was no response, and the content. *)
Record File : Type := mkFile {
  file_status : option Z;
  file_raw : string
}.

(** ** Arguments of the relation query *)

(** The value of a query argument: [None], a [str] as the argument parser
    leaves it, or the list of terms the handler replaces it by. *)
Inductive ArgVal : Type :=
| ANone
| AStr (s : string)
| AList (l : list string).

Inductive Field : Type := subject | object | predicate.

#[global] Instance Field_eq_dec : EqDecision Field.
Proof. solve_decision. Defined.

Definition field_name (f : Field) : string :=
  match f with
  | subject => "subject"
  | object => "object"
  | predicate => "predicate"
  end.

(** [self.args] of [MetaKGQueryHandler]. *)
Record MetaKGArgs : Type := mkArgs {
  arg_subject : ArgVal;
  arg_object : ArgVal;
  arg_predicate : ArgVal;
  arg_expand : bool
}.

Definition getattr (a : MetaKGArgs) (f : Field) : ArgVal :=
  match f with
  | subject => arg_subject a
  | object => arg_object a
  | predicate => arg_predicate a
  end.

Definition setattr (a : MetaKGArgs) (f : Field) (v : ArgVal) : MetaKGArgs :=
  match f with
  | subject => mkArgs v (arg_object a) (arg_predicate a) (arg_expand a)
  | object => mkArgs (arg_subject a) v (arg_predicate a) (arg_expand a)
  | predicate => mkArgs (arg_subject a) (arg_object a) v (arg_expand a)
  end.

(** [not value] is false exactly for these. *)
Definition arg_truthy (v : ArgVal) : bool :=
  match v with
  | ANone => false
  | AStr s => Str.truthy s
  | AList [] => false
  | AList (_ :: _) => true
  end.

(** ** The world a request runs in *)

Inductive Event : Type :=
| EvDownload (u : string)            (* download_async(url, ...) *)
| EvRefresh (i : string)             (* smartapi.refresh(file) *)
| EvSave (i : string)                (* smartapi.save() *)
| EvDelete (i : string)              (* smartapi.delete() *)
| EvCheck (i : string)               (* smartapi.check() *)
| EvWebhook (hook : string)          (* client.fetch(slack["webhook"], ...) *)
| EvLogError (msg : string)          (* logging.error *)
| EvDescendants (term : string)      (* toolkit.get_descendants(value) *)
| EvQuery (a : MetaKGArgs).          (* super().get(): the store is queried *)

Inductive Reply : Type :=
| Body (p : Payload)                          (* self.finish(p) *)
| ErrorSent (code : Z) (message : string).    (* self.send_error(...) *)

Record World : Type := mkWorld {
  store : gmap string SmartAPI;
  log : list Event;
  reply : option Reply
}.

Definition with_store (st : gmap string SmartAPI) (w : World) : World :=
  {| store := st; log := log w; reply := reply w |}.

Definition with_event (ev : Event) (w : World) : World :=
  {| store := store w; log := log w ++ [ev]; reply := reply w |}.

Definition with_reply (r : Reply) (w : World) : World :=
  {| store := store w; log := log w; reply := Some r |}.

(** ** The monad of handler code *)

Inductive Res (A : Type) : Type :=
| Ok (a : A)
| Raised (e : Exc).
Arguments Ok {A} a.
Arguments Raised {A} e.

Definition M (A : Type) : Type := World -> Res A * World.

Definition ret {A} (a : A) : M A := fun w => (Ok a, w).

Definition bind {A B} (m : M A) (k : A -> M B) : M B :=
  fun w =>
    match m w with
    | (Ok a, w') => k a w'
    | (Raised e, w') => (Raised e, w')
    end.

Definition raise {A} (e : Exc) : M A := fun w => (Raised e, w).

(** [try: m  except C1 as err: h1 err  except C2 as err: h2 err ...]: the
    first clause whose class test accepts the exception handles it; an
    exception no clause accepts goes on. *)
Fixpoint except_clause {A} (clauses : list ((Exc -> bool) * (Exc -> M A))) (e : Exc)
  : option (M A) :=
  match clauses with
  | [] => None
  | (catches, h) :: rest => if catches e then Some (h e) else except_clause rest e
  end.

Definition try_except {A} (m : M A) (clauses : list ((Exc -> bool) * (Exc -> M A))) : M A :=
  fun w =>
    match m w with
    | (Ok a, w') => (Ok a, w')
    | (Raised e, w') =>
        match except_clause clauses e with
        | Some h => h w'
        | None => (Raised e, w')
        end
    end.

Definition emit (ev : Event) : M unit := fun w => (Ok tt, with_event ev w).

Definition get_store : M (gmap string SmartAPI) := fun w => (Ok (store w), w).

Definition put_store (st : gmap string SmartAPI) : M unit :=
  fun w => (Ok tt, with_store st w).

(** [self.finish(p)] *)
Definition finish (p : Payload) : M unit := fun w => (Ok tt, with_reply (Body p) w).

(** [self.send_error(message=..., status_code=...)] *)
Definition send_error (message : string) (code : Z) : M unit :=
  fun w => (Ok tt, with_reply (ErrorSent code message) w).

(** The result of a call that returns or raises. *)
Definition lift {A} (r : Exc + A) : M A :=
  match r with
  | inl e => raise e
  | inr a => ret a
  end.

(** stdpp's monad notations: [x ← m; k] and [m ;; k]. *)
#[global] Instance M_ret : MRet M := @ret.
#[global] Instance M_bind : MBind M := fun A B k m => bind m k.

(** What the client of a request observes. [send_error] answers with the
    status code; its [message] is not the reason of the response: it is
    handed on to [write_error]. *)
Inductive Outcome : Type :=
| Replied (p : Payload)                       (* a 200 response with body p *)
| Failed (code : Z) (reason : option string)  (* an HTTP error response *)
| Crashed (e : Exc)                           (* an exception no handler caught *)
| ErrorPage (code : Z) (message : string)     (* send_error(status_code=code, message=...) *)
| NoReply.

Definition outcome (r : Res unit * World) : Outcome :=
  match r with
  | (Raised (HTTPError c reason), _) => Failed c reason
  | (Raised (Finish p), _) => Replied p
  | (Raised e, _) => Crashed e
  | (Ok _, w) =>
      match reply w with
      | Some (Body p) => Replied p
      | Some (ErrorSent c m) => ErrorPage c m
      | None => NoReply
      end
  end.

(** ** What the handlers call *)

Record Slack : Type := mkSlack {
  webhook : string;
  tags : option string
}.

(** The [controller] package, [utils.downloader], the [bmt] toolkit, the
    generic query layer and the web settings, as the handlers use them. A
    call that can raise returns [inl] of the exception. *)
Record Controller : Type := mkController {
  (* utils.downloader: what the network answers for a URL, and the
     DownloadError message of an answer that counts as a failed download *)
  fetch : string -> File;
  fetch_error : File -> option string;
  (* SmartAPI(url)._id *)
  new_id : string -> string;
  (* smartapi.raw = raw; smartapi.validate(): the version extracted *)
  smartapi_validate : string -> Exc + string;
  (* smartapi.refresh(file): the object afterwards and the code returned,
     an int or None *)
  smartapi_refresh : SmartAPI -> File -> SmartAPI * option Z;
  (* smartapi.save(): the _id and the store afterwards *)
  smartapi_save : SmartAPI -> gmap string SmartAPI -> Exc + (string * gmap string SmartAPI);
  (* smartapi.delete() *)
  smartapi_delete : SmartAPI -> gmap string SmartAPI -> Exc + (string * gmap string SmartAPI);
  (* smartapi.check(): the object afterwards and the uptime status *)
  smartapi_check : SmartAPI -> Exc + (SmartAPI * string);
  (* smartapi.slug = value, which may consult the store *)
  smartapi_set_slug : SmartAPI -> option string -> gmap string SmartAPI -> Exc + SmartAPI;
  (* the enumeration smartapi.webdoc.STATUS: the name of the member whose
     value is the code, if it has one *)
  STATUS : Z -> option string;
  (* str.lower() on a str with characters outside ASCII *)
  unicode_lower : string -> string;
  (* "x-translator" in smartapi["info"] *)
  has_x_translator : SmartAPI -> Exc + bool;
  (* bmt.Toolkit().get_descendants(value): the terms, or the message of the
     ValueError raised for a term the model does not know *)
  get_descendants : string -> string + list string;
  (* QueryHandler.get: the query layer's answer for the arguments *)
  query : MetaKGArgs -> Exc + Payload;
  (* self.settings.get("debug") *)
  debug : bool;
  (* client = AsyncHTTPClient() and the kwargs of the message: _id, name
     (the title of the info, "<Notitle>" without one), description (the
     first 120 characters and "..."), username *)
  notify_kwargs : SmartAPI -> Exc + Payload;
  (* getattr(self.web_settings, "SLACK_WEBHOOKS", []) *)
  SLACK_WEBHOOKS : Exc + list Slack;
  (* client.fetch(webhook, method="POST", ..., body=json.dumps(message)),
     the message being the translator one or the plain one *)
  client_fetch : string -> bool -> Payload -> Exc + unit
}.


(** Modelled from the spec: [SmartAPI.get(_id)] of the controller package,
    which is not among the sources: the entry registered under the id, or
    [NotFoundError] when there is none. *)
Definition SmartAPI_get (i : string) : M SmartAPI :=
  fun w =>
    match store w !! i with
    | Some e => (Ok e, w)
    | None => (Raised NotFoundError, w)
    end.

Definition field_value (field : string) (e : SmartAPI) : option string :=
  if String.eqb field "url" then Some (url e)
  else if String.eqb field "slug" then slug e
  else if String.eqb field "_id" then Some (_id e)
  else None.

(** Modelled from the spec: [SmartAPI.find(value, field)] of the controller
    package, which is not among the sources: the id of an entry whose
    [field] holds the value, or [None] when no entry does. *)
Definition SmartAPI_find (st : gmap string SmartAPI) (value field : string) : option string :=
  fst <$> (snd <$> list_find (fun kv => field_value field (snd kv) = Some value)
                             (map_to_list st)).

Section Calls.

Context (C : Controller).

(** [download_async(url, raise_error=...)] *)
Definition download_async (u : string) (raise_error : bool) : M File :=
  emit (EvDownload u);;
  let file := fetch C u in
  match fetch_error C file with
  | Some msg => if raise_error then raise (DownloadError msg) else mret file
  | None => mret file
  end.

Definition call_refresh (smartapi : SmartAPI) (file : File) : M (SmartAPI * option Z) :=
  emit (EvRefresh (_id smartapi));;
  mret (smartapi_refresh C smartapi file).

Definition call_save (smartapi : SmartAPI) : M string :=
  emit (EvSave (_id smartapi));;
  st ← get_store;
  '(i, st') ← lift (smartapi_save C smartapi st);
  put_store st';;
  mret i.

Definition call_delete (smartapi : SmartAPI) : M string :=
  emit (EvDelete (_id smartapi));;
  st ← get_store;
  '(i, st') ← lift (smartapi_delete C smartapi st);
  put_store st';;
  mret i.

Definition call_check (smartapi : SmartAPI) : M (SmartAPI * string) :=
  emit (EvCheck (_id smartapi));;
  lift (smartapi_check C smartapi).

(** [smartapi.slug = value] *)
Definition call_set_slug (smartapi : SmartAPI) (value : option string) : M SmartAPI :=
  st ← get_store;
  lift (smartapi_set_slug C smartapi value st).

(** [smartapi.webdoc.STATUS(code)]: looking up an enumeration by a value
    it has no member for raises [ValueError]. *)
Definition call_STATUS (code : option Z) : M string :=
  match code ≫= STATUS C with
  | Some name => mret name
  | None => raise (ValueError "not a valid STATUS")
  end.

(** [toolkit.get_descendants(value)] *)
Definition call_get_descendants (value : string) : M (list string) :=
  emit (EvDescendants value);;
  match get_descendants C value with
  | inr terms => mret terms
  | inl msg => raise (ValueError msg)
  end.

(** The decorator [github_authenticated]; [current_user] is the login of
    the user of the session, if any. *)
Definition github_authenticated (current_user : option string)
    (func : string -> M unit) : M unit :=
  match current_user with
  | None => send_error "You must log in first." 401
  | Some login => func login
  end.

End Calls.

(** ** [SmartAPIHandler] *)

Module SmartAPIHandler.
Section WithController.

Context (C : Controller).

(** One turn of the loop of [_notify]. *)
Definition notify_one (smartapi : SmartAPI) (kwargs : Payload) (slack : Slack) : M unit :=
  match tags slack with
  | Some t =>
      if String.eqb t "translator" then
        x ← lift (has_x_translator C smartapi);
        if (x : bool) then
          emit (EvWebhook (webhook slack));;
          lift (client_fetch C (webhook slack) true kwargs)
        else mret tt
      else mret tt
  | None =>
      emit (EvWebhook (webhook slack));;
      lift (client_fetch C (webhook slack) false kwargs)
  end.

Fixpoint for_each {A} (body : A -> M unit) (l : list A) : M unit :=
  match l with
  | [] => mret tt
  | x :: l' => body x;; for_each body l'
  end.

(** The client and the kwargs are made before the [try]; the lookup of the
    webhooks and the loop are inside it. *)
Definition _notify (smartapi : SmartAPI) : M unit :=
  if debug C then mret tt
  else
    kwargs ← lift (notify_kwargs C smartapi);
    try_except (slacks ← lift (SLACK_WEBHOOKS C);
                for_each (notify_one smartapi kwargs) slacks)
      [(fun _ => true, fun exc => emit (EvLogError (exc_str exc)))].

(** Code that runs once the response is finished: an exception that
    escapes it cannot change the response; tornado logs it, except for
    [Finish], and the request ends. *)
Definition after_finish (m : M unit) : M unit :=
  fun w =>
    match m w with
    | (Ok a, w') => (Ok a, w')
    | (Raised (Finish _), w') => (Ok tt, w')
    | (Raised e, w') => (Ok tt, with_event (EvLogError (exc_str e)) w')
    end.

(** [SmartAPI(url)] with [raw] set and [validate()] run. *)
Definition validated (u : string) (file : File) : M SmartAPI :=
  v ← lift (smartapi_validate C (file_raw file));
  mret {| _id := new_id C u; url := u; username := ""; slug := None;
          raw := file_raw file; version := v;
          webstatus := ""; webcode := None |}.

Definition set_username (smartapi : SmartAPI) (login : string) : SmartAPI :=
  {| _id := _id smartapi; url := url smartapi; username := login;
     slug := slug smartapi; raw := raw smartapi; version := version smartapi;
     webstatus := webstatus smartapi; webcode := webcode smartapi |}.

(** [POST /api/metadata]: add an API document. *)
Definition post (current_user : option string) (args_url : string)
    (args_dryrun : bool) : M unit :=
  github_authenticated current_user (fun login =>
    st ← get_store;
    if bool_decide (is_Some (SmartAPI_find st args_url "url")) then
      raise (HTTPError 409 None)
    else
      file ← try_except (download_async C args_url true)
               [(is_DownloadError,
                 fun err => raise (HTTPError 400 (Some (exc_str err))))];
      smartapi ← try_except (validated args_url file)
               [(fun e => is_ControllerError e || is_AssertionError e,
                 fun err => raise (HTTPError 400 (Some (exc_str err))))];
      if args_dryrun then
        raise (Finish [("success", JBool true);
                       ("details", JStr ("[Dryrun] Valid " +:+ version smartapi
                                         +:+ " Metadata"))])
      else
        '(smartapi, i) ← try_except
               (let smartapi := set_username smartapi login in
                '(smartapi, _) ← call_refresh C smartapi file;
                i ← call_save C smartapi;
                mret (smartapi, i))
               [(is_ControllerError,
                 fun err => raise (HTTPError 400 (Some (exc_str err))))];
        finish [("success", JBool true); ("_id", JStr i)];;
        after_finish (_notify smartapi)).

(** [code in (200, 299)] *)
Definition in_200_299 (code : option Z) : bool :=
  match code with
  | Some k => Z.eqb k 200 || Z.eqb k 299
  | None => false
  end.

(** The code in the response body. *)
Definition code_json (code : option Z) : JVal :=
  match code with
  | Some k => JInt k
  | None => JNull
  end.

(** The refresh branch of [put]. *)
Definition put_refresh (smartapi : SmartAPI) : M unit :=
  file ← download_async C (url smartapi) false;
  '(smartapi, code) ← call_refresh C smartapi file;
  call_save C smartapi;;
  status ← try_except (name ← call_STATUS C code;
                       mret (Str.lower (unicode_lower C) name))
             [(is_ValueError, fun _ => mret "nofile")];
  finish [("success", JBool (in_200_299 code));
          ("status", JStr status);
          ("code", code_json code)].

(** The slug branch of [put]. *)
Definition put_slug (smartapi : SmartAPI) (args_slug : string) : M unit :=
  if String.eqb args_slug "api" then
    raise (HTTPError 400 (Some "slug is reserved"))
  else
    try_except
      (smartapi ← call_set_slug C smartapi
                     (if Str.truthy args_slug then Some args_slug else None);
       call_save C smartapi;;
       mret tt)
      [(fun e => is_ControllerError e || is_ValueError e,
        fun err => raise (HTTPError 400 (Some (exc_str err))))];;
    finish [("success", JBool true)].

(** [PUT /api/metadata/<_id>]: update the slug, or refresh the document
    when the request has no slug. *)
Definition put (current_user : option string) (i : string)
    (args_slug : option string) : M unit :=
  github_authenticated current_user (fun login =>
    smartapi ← try_except (SmartAPI_get i)
                 [(is_NotFoundError, fun _ => raise (HTTPError 404 None))];
    if negb (String.eqb (username smartapi) login) then
      raise (HTTPError 403 None)
    else
      match args_slug with
      | Some s => put_slug smartapi s
      | None => put_refresh smartapi
      end).

(** [DELETE /api/metadata/<_id>] *)
Definition delete (current_user : option string) (i : string) : M unit :=
  github_authenticated current_user (fun login =>
    smartapi ← try_except (SmartAPI_get i)
                 [(is_NotFoundError, fun _ => raise (HTTPError 404 None))];
    if negb (String.eqb (username smartapi) login) then
      raise (HTTPError 403 None)
    else
      i' ← try_except (call_delete C smartapi)
             [(is_ControllerError,
               fun err => raise (HTTPError 400 (Some (exc_str err))))];
      finish [("success", JBool true); ("_id", JStr i')]).

End WithController.
End SmartAPIHandler.

(** ** [UptimeHandler] *)

Module UptimeHandler.
Section WithController.

Context (C : Controller).

(** The body shared by [UptimeHandler.get] and [UptimeHandler.post]. *)
Definition uptime_check (login : string) (args_id : string) (missing : string) : M unit :=
  if Str.truthy args_id then
    status ← try_except
               (smartapi ← SmartAPI_get args_id;
                if negb (String.eqb (username smartapi) login) then
                  raise (HTTPError 403 None)
                else
                  '(smartapi, status) ← call_check C smartapi;
                  call_save C smartapi;;
                  mret status)
               [(is_NotFoundError, fun _ => raise (HTTPError 404 None));
                (fun e => is_ControllerError e || is_AssertionError e,
                 fun err => raise (HTTPError 400 (Some (exc_str err))))];
    finish [("success", JBool true); ("details", JStr status)]
  else
    raise (HTTPError 400 (Some missing)).

(** [GET /api/uptime?id=<id>] *)
Definition get (current_user : option string) (request_body : string)
    (args_id : string) : M unit :=
  github_authenticated current_user (fun login =>
    if Str.truthy request_body then
      raise (HTTPError 400 (Some "GET takes no request body."))
    else
      uptime_check login args_id "Missing required parameter: id").

(** [POST /api/uptime] *)
Definition post (current_user : option string) (args_id : string) : M unit :=
  github_authenticated current_user (fun login =>
    uptime_check login args_id "Missing required form field: id").

End WithController.
End UptimeHandler.

(** ** [MetaKGQueryHandler] *)

(** [f"Cannot get descendants for field: `{field}` with value: `{value}`. Error: {ex}"] *)
Definition descendants_error (field : Field) (value ex : string) : string :=
  "Cannot get descendants for field: `" +:+ field_name field
  +:+ "` with value: `" +:+ value +:+ "`. Error: " +:+ ex.


Module MetaKGQueryHandler.
Section WithController.

Context (C : Controller).

(** The body of the loop over the fields, on [self.args]. A field is read
    before the loop writes it, so [value] is what the argument parser left:
    [None] or a [str]. *)
Definition expand_field (biolink_model_toolkit : bool) (args : MetaKGArgs)
    (field : Field) : M MetaKGArgs :=
  let value := getattr args field in
  if negb (arg_truthy value) then mret args
  else
    match value with
    | AStr s =>
        if biolink_model_toolkit then
          value' ← try_except (call_get_descendants C s)
                     [(is_ValueError,
                       fun ex => raise (HTTPError 400 (Some (
                         descendants_error field s (exc_str ex)))))];
          mret (setattr args field (AList value'))
        else
          mret (setattr args field (AList [s]))
    | _ => mret args
    end.

Fixpoint expand_fields (toolkit : bool) (fields : list Field) (args : MetaKGArgs)
  : M MetaKGArgs :=
  match fields with
  | [] => mret args
  | field :: rest =>
      args' ← expand_field toolkit args field;
      expand_fields toolkit rest args'
  end.

(** [super().get()]: the query layer runs the query for [self.args]. *)
Definition super_get (args : MetaKGArgs) : M unit :=
  emit (EvQuery args);;
  res ← lift (query C args);
  finish res.

(** [GET /api/metakg]. The toolkit object, once made, is truthy, so
    [if biolink_model_toolkit] tests [self.args.expand]. The decorator
    [capture_exceptions] belongs to the query layer; the handler is given
    by what it raises. *)
Definition get (args : MetaKGArgs) : M unit :=
  let biolink_model_toolkit := arg_expand args in
  args' ← expand_fields biolink_model_toolkit [subject; object; predicate] args;
  super_get args'.

End WithController.
End MetaKGQueryHandler.

(** ** [model/metakg.py]: the mapping of [MetaKGDoc]

    The module declares field objects; what is indexed for them is the work
    of Elasticsearch. *)

Module MetaKG.

(** [analysis.normalizer(name, filter=[...])] *)
Record Normalizer : Type := mkNormalizer {
  normalizer_name : string;
  normalizer_filter : list string
}.

(** The field objects of [elasticsearch_dsl] the module builds. *)
#[warnings="-register-all"]
Inductive FieldType : Type :=
| Keyword (normalizer : option Normalizer) (copy_to : list string) (required : bool)
| Text (fields : list (string * FieldType)) (copy_to : list string) (index : bool)
| Object (properties : list (string * FieldType)).

Definition lowercase_normalizer : Normalizer :=
  mkNormalizer "lowercase_normalizer" ["lowercase"].

Definition lowercase_keyword : FieldType :=
  Keyword (Some lowercase_normalizer) [] false.

Definition lowercase_keyword_copy_to_all : FieldType :=
  Keyword (Some lowercase_normalizer) ["all"] false.

Definition lowercase_keyword_node : FieldType :=
  Keyword (Some lowercase_normalizer) ["all"; "node"] false.

Definition default_text : FieldType :=
  Text [("raw", lowercase_keyword)] ["all"] true.

(** The two fields [metakg_mapping] adds for [copy_to]. *)
Definition metakg_mapping : list (string * FieldType) :=
  [("all", Text [] [] true); ("node", lowercase_keyword)].

Definition SmartAPIInnerDoc : list (string * FieldType) :=
  [("id", Keyword None [] true);
   ("metadata", Text [] [] false);
   ("ui", Text [] [] false)].

Definition APIInnerDoc : list (string * FieldType) :=
  [("name", default_text); ("smartapi", Object SmartAPIInnerDoc)].

(** The fields of [MetaKGDoc], with those of its [Meta.mapping]. *)
Definition MetaKGDoc : list (string * FieldType) :=
  [("subject", lowercase_keyword_node);
   ("object", lowercase_keyword_node);
   ("predicate", lowercase_keyword_copy_to_all);
   ("provided_by", default_text);
   ("api", Object APIInnerDoc)]
  ++ metakg_mapping.

End MetaKG.

(** ** The controller, as the specification describes it *)

Module Spec.

Definition in_range (lo hi code : Z) : bool := Z.leb lo code && Z.leb code hi.

(** Modelled from the spec: the failure test of [utils.downloader], which
    is not among the sources, for a download that raises on failure: the
    download has succeeded when there was a response and its status code is
    in the success range 200-299. *)
Definition fetch_error (file : File) : option string :=
  match file_status file with
  | Some code =>
      if in_range 200 299 code then None else Some "download failed"
  | None => Some "download failed"
  end.

(** Modelled from the spec: the enumeration [STATUS] of the controller's
    web document, which is not among the sources, with the status-code
    mapping of [refresh]: the codes of the success range are VALID, the
    other ranges are named failure states (client errors INVALID, server
    errors UNAVAILABLE), and an unmapped code is UNKNOWN. *)
Definition STATUS (code : Z) : option string :=
  if in_range 200 299 code then Some "VALID"
  else if in_range 400 499 code then Some "INVALID"
  else if in_range 500 599 code then Some "UNAVAILABLE"
  else Some "UNKNOWN".

(** The named state of a code. *)
Definition web_status (code : Z) : string :=
  match STATUS code with
  | Some name => name
  | None => "UNKNOWN"
  end.

Definition with_content (e : SmartAPI) (content v status : string) (code : Z) : SmartAPI :=
  {| _id := _id e; url := url e; username := username e; slug := slug e;
     raw := content; version := v; webstatus := status; webcode := Some code |}.

Definition with_status (e : SmartAPI) (status : string) (code : Z) : SmartAPI :=
  {| _id := _id e; url := url e; username := username e; slug := slug e;
     raw := raw e; version := version e; webstatus := status; webcode := Some code |}.

(** The status fields after a fetch that failed: NOFILE, and no code. *)
Definition with_nofile (e : SmartAPI) : SmartAPI :=
  {| _id := _id e; url := url e; username := username e; slug := slug e;
     raw := raw e; version := version e; webstatus := "NOFILE"; webcode := None |}.

Definition with_status_of (e : SmartAPI) (status : string) : SmartAPI :=
  {| _id := _id e; url := url e; username := username e; slug := slug e;
     raw := raw e; version := version e; webstatus := status; webcode := None |}.

Definition with_slug (e : SmartAPI) (s : option string) : SmartAPI :=
  {| _id := _id e; url := url e; username := username e; slug := s;
     raw := raw e; version := version e;
     webstatus := webstatus e; webcode := webcode e |}.

Section Controller.

(** The external collaborators: the network, the validator, the
    taxonomy lookup and the query layer. *)
Context (net : string -> File)
        (validator : string -> Exc + string)
        (taxonomy : string -> string + list string)
        (search : MetaKGArgs -> Exc + Payload).

(** Modelled from the spec: [SmartAPI.refresh(file)] of the controller
    package, which is not among the sources. The outcome of the fetch is a
    content with a status code, or a failure, without one. When the fetch
    succeeded and the new content validates, the content and the version are
    replaced and the status is set from the code; otherwise the previous
    content is retained and the status is NOFILE. The raw status code is
    returned: none after a fetch that failed. *)
Definition refresh (e : SmartAPI) (file : File) : SmartAPI * option Z :=
  match file_status file with
  | Some code =>
      match validator (file_raw file) with
      | inr v => (with_content e (file_raw file) v (web_status code) code, Some code)
      | inl _ => (with_status e "NOFILE" code, Some code)
      end
  | None => (with_nofile e, None)
  end.

(** Modelled from the spec: [SmartAPI.save()]: the entry is persisted
    under its id. *)
Definition save (e : SmartAPI) (st : gmap string SmartAPI)
  : Exc + (string * gmap string SmartAPI) :=
  inr (_id e, <[_id e := e]> st).

(** Modelled from the spec: [SmartAPI.delete()]: the entry is removed;
    its id is returned. *)
Definition delete (e : SmartAPI) (st : gmap string SmartAPI)
  : Exc + (string * gmap string SmartAPI) :=
  inr (_id e, base.delete (_id e) st).

(** Modelled from the spec: [SmartAPI.check()]: a liveness fetch of the
    source URL that updates the status fields only and reports the
    status. *)
Definition check (e : SmartAPI) : Exc + (SmartAPI * string) :=
  match file_status (net (url e)) with
  | Some code =>
      inr (with_status e (web_status code) code, Str.ascii_lower (web_status code))
  | None => inr (with_status_of e "UNAVAILABLE", "unavailable")
  end.

(** Modelled from the spec: the assignment of a slug: a reserved value
    is refused, and so is a value another entry holds; an absent value
    clears the slug. *)
Definition set_slug (e : SmartAPI) (value : option string) (st : gmap string SmartAPI)
  : Exc + SmartAPI :=
  match value with
  | None => inr (with_slug e None)
  | Some s =>
      if String.eqb s "api" then inl (ValueError "slug is reserved")
      else
        match SmartAPI_find st s "slug" with
        | Some j =>
            if String.eqb j (_id e) then inr (with_slug e (Some s))
            else inl (ControllerError "slug is already registered")
        | None => inr (with_slug e (Some s))
        end
  end.

Definition controller : Controller :=
  mkController
    net                 (* fetch *)
    fetch_error
    (fun u => u)        (* new_id: the URL serves as the id *)
    validator           (* smartapi_validate *)
    refresh save delete check set_slug
    STATUS
    (fun s => s)            (* unicode_lower: the names of STATUS are ASCII *)
    (fun _ => inr false)    (* has_x_translator *)
    taxonomy                (* get_descendants *)
    search                  (* query *)
    false                   (* debug *)
    (fun _ => inr [])       (* notify_kwargs *)
    (inr [])                (* SLACK_WEBHOOKS *)
    (fun _ _ _ => inr tt).  (* client_fetch *)

End Controller.

End Spec.

(** ** A small registry to run the handlers on *)

Module Demo.

Definition net (u : string) : File :=
  if String.eqb u "https://example.org/api.json" then mkFile (Some 404) ""
  else if String.eqb u "https://example.org/odd.json" then mkFile (Some 700) ""
  else if String.eqb u "https://example.org/new.json"
       then mkFile (Some 200) "openapi: 3.0.0"
  else if String.eqb u "https://example.org/live.json"
       then mkFile (Some 204) "openapi: 3.0.2"
  else if String.eqb u "https://example.org/none.json" then mkFile (Some 599) ""
  else mkFile None "".

Definition validator (content : string) : Exc + string :=
  if String.prefix "openapi" content then inr "3.0.0"
  else inl (ControllerError "Not a valid SmartAPI document.").

Definition taxonomy (term : string) : string + list string :=
  if String.eqb term "gene" then inr ["gene"; "protein coding gene"]
  else if String.eqb term "Gene" then inr ["gene"; "protein coding gene"]
  else if String.eqb term "disease" then inr ["disease"]
  else inl "unknown term".

Definition search (a : MetaKGArgs) : Exc + Payload := inr [("total", JInt 0)].

Definition C : Controller := Spec.controller net validator taxonomy search.

Definition X : SmartAPI :=
  {| _id := "X"; url := "https://example.org/api.json"; username := "alice";
     slug := None; raw := "openapi: 3.0.0"; version := "3.0.0";
     webstatus := "VALID"; webcode := Some 200 |}.

Definition Y : SmartAPI :=
  {| _id := "Y"; url := "https://example.org/odd.json"; username := "alice";
     slug := Some "odd"; raw := "openapi: 3.0.1"; version := "3.0.1";
     webstatus := "VALID"; webcode := Some 200 |}.

Definition registry : gmap string SmartAPI := <["X" := X]> (<["Y" := Y]> ∅).

Definition world : World := {| store := registry; log := []; reply := None |}.

(** Two more entries: one behind a server that answers, one behind a
    server that does not. *)
Definition Z_live : SmartAPI :=
  {| _id := "Z"; url := "https://example.org/live.json"; username := "alice";
     slug := None; raw := "openapi: 3.0.2"; version := "3.0.2";
     webstatus := "VALID"; webcode := Some 200 |}.

Definition D_down : SmartAPI :=
  {| _id := "D"; url := "https://example.org/down.json"; username := "alice";
     slug := None; raw := "openapi: 3.0.3"; version := "3.0.3";
     webstatus := "VALID"; webcode := Some 200 |}.

Definition world2 : World :=
  {| store := <["Z" := Z_live]> (<["D" := D_down]> registry); log := []; reply := None |}.

End Demo.

(** ** Requests on an existing entry *)

(** The status name [put] reports for a code: the lowercased name of the
    member of [STATUS] for the code, "nofile" when there is none. *)
Definition reported (C : Controller) (code : option Z) : string :=
  match code ≫= STATUS C with
  | Some name => Str.lower (unicode_lower C) name
  | None => "nofile"
  end.

(** The codes the status mapping of the specification names: the success
    range and the two failure ranges. *)
Definition named_code (k : Z) : Prop :=
  200 <= k <= 299 \/ 400 <= k <= 499 \/ 500 <= k <= 599.

(** The operations that change an entry registered under an id. The uptime
    check by GET is the request without a body. *)
Inductive Mutation : Type :=
| SlugUpdate (s : string)
| Refresh
| Delete
| UptimeGet
| UptimePost.

Definition mutate (C : Controller) (login i : string) (op : Mutation) : M unit :=
  match op with
  | SlugUpdate s => SmartAPIHandler.put C (Some login) i (Some s)
  | Refresh => SmartAPIHandler.put C (Some login) i None
  | Delete => SmartAPIHandler.delete C (Some login) i
  | UptimeGet => UptimeHandler.get C (Some login) "" i
  | UptimePost => UptimeHandler.post C (Some login) i
  end.

(** The uptime check tests its request before it looks the entry up. *)
Definition is_uptime (op : Mutation) : bool :=
  match op with
  | UptimeGet | UptimePost => true
  | _ => false
  end.

(** A request starts with no reply written. *)
Definition fresh (w : World) : World :=
  {| store := store w; log := log w; reply := None |}.

(** A series of dry-run create requests, each by a user (or nobody) for a
    URL, one after the other. *)
Fixpoint dryruns (C : Controller) (reqs : list (option string * string)) (w : World)
  : World :=
  match reqs with
  | [] => w
  | (user, u) :: rest =>
      dryruns C rest (snd (SmartAPIHandler.post C user u true (fresh w)))
  end.

Definition is_download (ev : Event) : bool :=
  match ev with EvDownload _ => true | _ => false end.

Definition is_query (ev : Event) : bool :=
  match ev with EvQuery _ => true | _ => false end.

Definition is_descendants (ev : Event) : bool :=
  match ev with EvDescendants _ => true | _ => false end.

(** The arguments of a relation query as the argument parser leaves them:
    each field the [str] that was sent, or [None]. *)
Definition parsed (s o p : option string) (expand : bool) : MetaKGArgs :=
  let arg (v : option string) := match v with Some x => AStr x | None => ANone end in
  mkArgs (arg s) (arg o) (arg p) expand.

(** What the specification's [expand] makes of one filter value, given the
    flag: a present value becomes the expander's match set when the flag is
    set and the lookup succeeds, and the single-element set of the value
    when the flag is not set; an absent or empty value stays as it is. *)
Definition expand_spec (C : Controller) (expandFlag : bool) (value : ArgVal) : ArgVal :=
  match value with
  | AStr v =>
      if Str.truthy v then
        if expandFlag then
          match get_descendants C v with
          | inr terms => AList terms
          | inl _ => value
          end
        else AList [v]
      else value
  | _ => value
  end.

(** The value of a field is a [str] the toolkit does not know. *)
Definition unknown_term (C : Controller) (a : MetaKGArgs) (f : Field) : Prop :=
  exists v msg, getattr a f = AStr v /\ v <> "" /\ get_descendants C v = inl msg.

(** The run of a handler that put back an empty value in a field. *)
Definition restore_empty (f : Field) (r : Res MetaKGArgs * World) : Res MetaKGArgs * World :=
  match r with
  | (Ok a, w) => (Ok (setattr a f (AStr "")), w)
  | (Raised e, w) => (Raised e, w)
  end.

(** The world after further calls were logged. *)
Definition logged (w : World) (evs : list Event) : World :=
  {| store := store w; log := log w ++ evs; reply := reply w |}.

(** A registry whose index refuses writes. *)
Module Outage.

Definition refuse (e : SmartAPI) (st : gmap string SmartAPI)
  : Exc + (string * gmap string SmartAPI) :=
  inl (ControllerError "index is read-only").

Definition C : Controller :=
  mkController Demo.net Spec.fetch_error (fun u => u) Demo.validator
    (Spec.refresh Demo.validator) refuse refuse (Spec.check Demo.net)
    Spec.set_slug Spec.STATUS (fun s => s) (fun _ => inr false)
    Demo.taxonomy Demo.search
    false (fun _ => inr []) (inr []) (fun _ _ _ => inr tt).

End Outage.

(** A registry with webhooks in its settings: the post to the second plain
    one fails. *)
Module Hooks.

Definition slacks : list Slack :=
  [mkSlack "https://hooks.example.org/a" None;
   mkSlack "https://hooks.example.org/t" (Some "translator");
   mkSlack "https://hooks.example.org/b" None;
   mkSlack "https://hooks.example.org/c" None].

Definition client_fetch (hook : string) (translator : bool) (kwargs : Payload)
  : Exc + unit :=
  if String.eqb hook "https://hooks.example.org/b"
  then inl (ControllerError "HTTP 599: Timeout")
  else inr tt.

Definition C : Controller :=
  mkController Demo.net Spec.fetch_error (fun u => u) Demo.validator
    (Spec.refresh Demo.validator) Spec.save Spec.delete (Spec.check Demo.net)
    Spec.set_slug Spec.STATUS (fun s => s) (fun _ => inr false)
    Demo.taxonomy Demo.search
    false (fun e => inr [("_id", JStr (_id e))]) (inr slacks) client_fetch.

End Hooks.

(** ** [ValidateHandler] *)

Module ValidateHandler.
Section WithController.

Context (C : Controller).

(** [download(url)]: the raw content of the downloaded file. *)
Definition download (u : string) : M string :=
  file ← try_except (download_async C u true)
           [(is_DownloadError,
             fun err => raise (HTTPError 400 (Some (exc_str err))))];
  mret (file_raw file).

(** [validate(raw)]: a [SmartAPI] object in validation-only mode is given
    the content and validated. *)
Definition validate (content : string) : M unit :=
  v ← try_except (lift (smartapi_validate C content))
        [(fun e => is_ControllerError e || is_AssertionError e,
          fun err => raise (HTTPError 400 (Some (exc_str err))))];
  finish [("success", JBool true);
          ("details", JStr ("valid SmartAPI (" +:+ v +:+ ") metadata."))].

(** [GET /api/validate?url=<url>] *)
Definition get (request_body : string) (args_url : string) : M unit :=
  if Str.truthy request_body then
    raise (HTTPError 400 (Some "GET takes no request body."))
  else
    content ← download args_url;
    validate content.

(** [POST /api/validate]: with a URL, or with the document as the body. *)
Definition post (request_body : string) (args_url : option string) : M unit :=
  content ← match args_url with
            | Some u => if Str.truthy u then download u else mret request_body
            | None => mret request_body
            end;
  validate content.

End WithController.
End ValidateHandler.

(** ** Calls a request may make *)

(** The calls a notification may make. *)
Definition is_notification (ev : Event) : bool :=
  match ev with
  | EvWebhook _ | EvLogError _ => true
  | _ => false
  end.

(** The entry [post] builds for a URL once its document validated, with
    the user as its owner. *)
Definition created (C : Controller) (login u v : string) : SmartAPI :=
  {| _id := new_id C u; url := u; username := login; slug := None;
     raw := file_raw (fetch C u); version := v;
     webstatus := ""; webcode := None |}.

(** The calls an operation on an entry may make. *)
Definition may_call (op : Mutation) (ev : Event) : bool :=
  match op, ev with
  | SlugUpdate _, EvSave _ => true
  | Refresh, (EvDownload _ | EvRefresh _ | EvSave _) => true
  | Delete, EvDelete _ => true
  | (UptimeGet | UptimePost), (EvCheck _ | EvSave _) => true
  | _, _ => false
  end.

(** The values of the fields that are present, in the order of the loop. *)
Definition present_values (a : MetaKGArgs) : list string :=
  omap (fun f => match getattr a f with
                 | AStr v => if Str.truthy v then Some v else None
                 | _ => None
                 end)
       [subject; object; predicate].

(** * Properties *)

(** ** Reading the store *)

Lemma SmartAPI_find_Some (st : gmap string SmartAPI) (value field : string) (i : string)
    (e : SmartAPI) :
  st !! i = Some e -> field_value field e = Some value ->
  is_Some (SmartAPI_find st value field).
Proof.
  intros Hi Hv. unfold SmartAPI_find.
  destruct (list_find _ (map_to_list st)) as [[n kv]|] eqn:Hf.
  - simpl. eauto.
  - apply list_find_None in Hf.
    rewrite list.Forall_forall in Hf.
    exfalso. apply (Hf (i, e)).
    + by apply elem_of_map_to_list.
    + done.
Qed.

Lemma SmartAPI_find_None (st : gmap string SmartAPI) (value field : string) :
  SmartAPI_find st value field = None ->
  forall i e, st !! i = Some e -> field_value field e <> Some value.
Proof.
  intros Hf i e Hi Hv.
  destruct (SmartAPI_find_Some st value field i e Hi Hv) as [j Hj]. congruence.
Qed.

Lemma SmartAPI_find_sound (st : gmap string SmartAPI) (value field j : string) :
  SmartAPI_find st value field = Some j ->
  exists e, st !! j = Some e /\ field_value field e = Some value.
Proof.
  unfold SmartAPI_find.
  destruct (list_find _ (map_to_list st)) as [[n [k e]]|] eqn:Hf; simpl; [|done].
  intros [= <-]. apply list_find_Some in Hf as (Hl & Hv & _).
  exists e. split; [|done].
  apply elem_of_map_to_list. eapply list_elem_of_lookup_2. exact Hl.
Qed.

(** ** The refresh branch of [put] *)

Section Refresh.

Context (C : Controller).

(** The run of a refresh request by the owner, when the save goes through. *)
Lemma put_refresh_run (w : World) (login i : string) (e e' : SmartAPI) (code : option Z)
    (j : string) (st' : gmap string SmartAPI) :
  store w !! i = Some e ->
  username e = login ->
  smartapi_refresh C e (fetch C (url e)) = (e', code) ->
  smartapi_save C e' (store w) = inr (j, st') ->
  SmartAPIHandler.put C (Some login) i None w
  = (Ok tt,
     {| store := st';
        log := log w ++ [EvDownload (url e); EvRefresh (_id e); EvSave (_id e')];
        reply := Some (Body
          [("success", JBool (SmartAPIHandler.in_200_299 code));
           ("status", JStr (reported C code));
           ("code", SmartAPIHandler.code_json code)]) |}).
Proof.
  intros Hi Hu Hr Hs.
  unfold SmartAPIHandler.put, github_authenticated.
  unfold mbind, M_bind, bind, try_except, SmartAPI_get. rewrite Hi. simpl.
  rewrite Hu, String.eqb_refl. simpl.
  unfold SmartAPIHandler.put_refresh, download_async, call_refresh, call_save.
  unfold mbind, M_bind, bind, emit, mret, M_ret, ret. simpl.
  unfold reported.
  destruct (fetch_error C (fetch C (url e))); simpl;
    rewrite Hr; simpl; rewrite Hs; simpl;
    unfold call_STATUS; destruct (code ≫= STATUS C); simpl;
    unfold with_reply, with_event, with_store; simpl;
    rewrite <- !app_assoc; reflexivity.
Qed.

End Refresh.





(** ** Refresh against the controller of the specification *)

Section SpecRefresh.

Context (net : string -> File)
        (validator : string -> Exc + string)
        (taxonomy : string -> string + list string)
        (search : MetaKGArgs -> Exc + Payload).

Let C : Controller := Spec.controller net validator taxonomy search.

Lemma STATUS_spec (k : Z) :
  (200 <= k <= 299 -> Spec.STATUS k = Some "VALID") /\
  (~ named_code k -> Spec.STATUS k = Some "UNKNOWN").
Proof.
  unfold Spec.STATUS, Spec.in_range, named_code. split; intros H.
  - destruct H as [H1 H2].
    apply Z.leb_le in H1, H2. rewrite H1, H2. reflexivity.
  - destruct (Z.leb_spec 200 k), (Z.leb_spec k 299); simpl;
      try (exfalso; apply H; lia);
      destruct (Z.leb_spec 400 k), (Z.leb_spec k 499); simpl;
      try (exfalso; apply H; lia);
      destruct (Z.leb_spec 500 k), (Z.leb_spec k 599); simpl;
      try (exfalso; apply H; lia); reflexivity.
Qed.

(** A refresh returns the status code of the fetch. *)
Lemma refresh_code (e : SmartAPI) (file : File) :
  snd (Spec.refresh validator e file) = file_status file.
Proof.
  unfold Spec.refresh. destruct (file_status file) as [k|]; [|reflexivity].
  destruct (validator (file_raw file)); reflexivity.
Qed.

(** C2. With the controller the specification describes, the reply to a
    refresh request by the owner whose fetch returned a status code reports
    "valid" when the code is in the success range 200-299, and "unknown"
    when the code is in no range the mapping names (not the success range,
    not a failure range); the reply carries the code. *)
Theorem refresh_status_name (w : World) (login i : string) (e : SmartAPI) (k : Z) :
  store w !! i = Some e ->
  username e = login ->
  file_status (net (url e)) = Some k ->
  exists p,
    outcome (SmartAPIHandler.put C (Some login) i None w) = Replied p /\
    payload_get "code" p = Some (JInt k) /\
    (200 <= k <= 299 -> payload_get "status" p = Some (JStr "valid")) /\
    (~ named_code k -> payload_get "status" p = Some (JStr "unknown")).
Proof.
  intros Hi Hu Hk.
  destruct (Spec.refresh validator e (net (url e))) as [e' code] eqn:Hr.
  assert (Hcode : code = Some k)
    by (rewrite <- Hk, <- (refresh_code e (net (url e))), Hr; reflexivity).
  subst code.
  rewrite (put_refresh_run C w login i e e' (Some k) (_id e')
             (<[_id e' := e']> (store w)) Hi Hu Hr eq_refl).
  simpl. eexists. split; [reflexivity|]. simpl.
  split; [reflexivity|].
  destruct (STATUS_spec k) as [Hvalid Hunknown].
  unfold reported. simpl.
  split; intros H.
  - rewrite (Hvalid H). reflexivity.
  - rewrite (Hunknown H). reflexivity.
Qed.



End SpecRefresh.

Lemma refresh_status_name_witness :
  (exists p,
     outcome (SmartAPIHandler.put Demo.C (Some "alice") "Z" None Demo.world2) = Replied p /\
     payload_get "code" p = Some (JInt 204) /\
     payload_get "status" p = Some (JStr "valid")) /\
  (exists p,
     outcome (SmartAPIHandler.put Demo.C (Some "alice") "Y" None Demo.world2) = Replied p /\
     payload_get "code" p = Some (JInt 700) /\
     payload_get "status" p = Some (JStr "unknown")).
Proof.
  split.
  - destruct (refresh_status_name Demo.net Demo.validator Demo.taxonomy Demo.search
                Demo.world2 "alice" "Z" Demo.Z_live 204 eq_refl eq_refl eq_refl)
      as (p & Hrun & Hcode & Hvalid & _).
    exists p. split; [exact Hrun|]. split; [exact Hcode|]. apply Hvalid. lia.
  - destruct (refresh_status_name Demo.net Demo.validator Demo.taxonomy Demo.search
                Demo.world2 "alice" "Y" Demo.Y 700 eq_refl eq_refl eq_refl)
      as (p & Hrun & Hcode & _ & Hunknown).
    exists p. split; [exact Hrun|]. split; [exact Hcode|]. apply Hunknown.
    unfold named_code. lia.
Defined.


(** ** Existence and ownership come first *)

Section Ownership.

Context (C : Controller).

Lemma truthy_nonempty (s : string) : s <> "" -> Str.truthy s = true.
Proof. destruct s; [congruence | reflexivity]. Qed.

Lemma eqb_neq_false (a b : string) : a <> b -> negb (String.eqb a b) = true.
Proof. intros H. apply String.eqb_neq in H. rewrite H. reflexivity. Qed.

(** C6 (as amended). A slug update, a refresh, a deletion or an uptime
    check of a logged-in user fails with 404 when no entry is registered
    under the id, and with 403 when the entry is owned by another user,
    and leaves the world as it was: nothing is fetched, checked, saved or
    deleted, and the reserved-slug test is not reached. For the uptime
    check this holds once its own request guards have passed: the GET
    request has no body and the id is not empty. *)
Theorem ownership_check_first (w : World) (login i : string) (op : Mutation) :
  (is_uptime op = true -> i <> "") ->
  (store w !! i = None ->
   mutate C login i op w = (Raised (HTTPError 404 None), w)) /\
  (forall e, store w !! i = Some e -> username e <> login ->
   mutate C login i op w = (Raised (HTTPError 403 None), w)).
Proof.
  intros Hguard.
  assert (Hid : is_uptime op = true -> Str.truthy i = true)
    by (intros Hop; apply truthy_nonempty, Hguard, Hop).
  split.
  - intros Hi. destruct op; simpl in *;
      unfold SmartAPIHandler.put, SmartAPIHandler.delete,
             UptimeHandler.get, UptimeHandler.post, UptimeHandler.uptime_check,
             github_authenticated; simpl;
      rewrite ?(Hid eq_refl);
      unfold mbind, M_bind, bind, try_except, SmartAPI_get, raise;
      rewrite Hi; reflexivity.
  - intros e Hi Hu. destruct op; simpl in *;
      unfold SmartAPIHandler.put, SmartAPIHandler.delete,
             UptimeHandler.get, UptimeHandler.post, UptimeHandler.uptime_check,
             github_authenticated; simpl;
      rewrite ?(Hid eq_refl);
      unfold mbind, M_bind, bind, try_except, SmartAPI_get, raise;
      rewrite Hi; simpl; rewrite (eqb_neq_false _ _ Hu); reflexivity.
Qed.

(** C7. A create request for a URL that is the URL of a registered entry
    fails with 409, whatever the document behind the URL is, and leaves
    the world as it was: the document is neither fetched nor validated. *)
Theorem create_duplicate_conflict (w : World) (login u : string) (dryrun : bool)
    (i : string) (e : SmartAPI) :
  store w !! i = Some e ->
  url e = u ->
  SmartAPIHandler.post C (Some login) u dryrun w = (Raised (HTTPError 409 None), w).
Proof.
  intros Hi Hu.
  unfold SmartAPIHandler.post, github_authenticated.
  unfold mbind, M_bind, bind, get_store.
  rewrite bool_decide_eq_true_2; [reflexivity|].
  apply (SmartAPI_find_Some (store w) u "url" i e Hi).
  unfold field_value. simpl. by rewrite Hu.
Qed.

End Ownership.

Lemma ownership_check_first_witness :
  (mutate Demo.C "bob" "nope" Refresh Demo.world
   = (Raised (HTTPError 404 None), Demo.world)) /\
  (mutate Demo.C "bob" "X" (SlugUpdate "api") Demo.world
   = (Raised (HTTPError 403 None), Demo.world)) /\
  (mutate Demo.C "bob" "X" UptimeGet Demo.world
   = (Raised (HTTPError 403 None), Demo.world)).
Proof.
  split; [|split].
  - apply (ownership_check_first Demo.C Demo.world "bob" "nope" Refresh);
      [discriminate | reflexivity].
  - apply (proj2 (ownership_check_first Demo.C Demo.world "bob" "X" (SlugUpdate "api")
                    ltac:(discriminate)) Demo.X);
      [reflexivity | discriminate].
  - apply (proj2 (ownership_check_first Demo.C Demo.world "bob" "X" UptimeGet
                    ltac:(intros _; discriminate)) Demo.X);
      [reflexivity | discriminate].
Defined.

(** C6 as stated fails for the uptime check: a GET request with a body is
    refused with 400 before the entry is looked up, for an entry of another
    user and for an id that is not registered alike. *)
Lemma uptime_body_guard_counterexample :
  store Demo.world !! "X" = Some Demo.X /\
  username Demo.X <> "bob" /\
  UptimeHandler.get Demo.C (Some "bob") "{}" "X" Demo.world
  = (Raised (HTTPError 400 (Some "GET takes no request body.")), Demo.world) /\
  outcome (UptimeHandler.get Demo.C (Some "bob") "{}" "X" Demo.world)
  <> Failed 403 None /\
  store Demo.world !! "nope" = None /\
  outcome (UptimeHandler.get Demo.C (Some "bob") "{}" "nope" Demo.world)
  <> Failed 404 None.
Proof.
  split; [reflexivity|]. split; [discriminate|]. split; [reflexivity|].
  split; [discriminate|]. split; [reflexivity | discriminate].
Qed.

Lemma create_duplicate_conflict_witness :
  SmartAPIHandler.post Demo.C (Some "bob") "https://example.org/api.json" false Demo.world
  = (Raised (HTTPError 409 None), Demo.world).
Proof.
  apply (create_duplicate_conflict Demo.C Demo.world "bob"
           "https://example.org/api.json" false "X" Demo.X);
    reflexivity.
Defined.

(** ** Dry-run creation *)

Section Dryrun.

Context (C : Controller).

Lemma find_unregistered (st : gmap string SmartAPI) (u : string) :
  (forall i e, st !! i = Some e -> url e <> u) ->
  SmartAPI_find st u "url" = None.
Proof.
  intros Hfree. destruct (SmartAPI_find st u "url") as [j|] eqn:Hf; [|reflexivity].
  apply SmartAPI_find_sound in Hf as (e & Hj & Hv).
  unfold field_value in Hv. simpl in Hv. injection Hv as Hv.
  exfalso. exact (Hfree j e Hj Hv).
Qed.

(** One dry-run request: the store is as before, and the only calls made
    are downloads. *)
Lemma post_dryrun_frame (user : option string) (u : string) (w : World) :
  let w' := snd (SmartAPIHandler.post C user u true w) in
  store w' = store w /\
  exists evs, log w' = log w ++ evs /\ forallb is_download evs = true.
Proof.
  unfold SmartAPIHandler.post, github_authenticated.
  destruct user as [login|]; simpl.
  - unfold mbind, M_bind, bind, get_store.
    destruct (bool_decide _); simpl.
    + split; [reflexivity|]. exists []. by rewrite app_nil_r.
    + unfold try_except, download_async, SmartAPIHandler.validated.
      unfold mbind, M_bind, bind, emit, lift, raise, mret, M_ret, ret. simpl.
      destruct (fetch_error C (fetch C u)); simpl;
        [| destruct (smartapi_validate C (file_raw (fetch C u))) as [err|v]; simpl;
           [destruct (is_ControllerError err || is_AssertionError err)|] ];
        simpl; (split; [reflexivity|]); exists [EvDownload u]; split; reflexivity.
  - split; [reflexivity|]. exists []. by rewrite app_nil_r.
Qed.

Lemma dryruns_frame (reqs : list (option string * string)) (w : World) :
  store (dryruns C reqs w) = store w /\
  exists evs, log (dryruns C reqs w) = log w ++ evs /\ forallb is_download evs = true.
Proof.
  revert w. induction reqs as [|[user u] reqs IH]; intros w; simpl.
  - split; [reflexivity|]. exists []. by rewrite app_nil_r.
  - destruct (IH (snd (SmartAPIHandler.post C user u true (fresh w))))
      as (Hst & evs2 & Hlog2 & Hd2).
    destruct (post_dryrun_frame user u (fresh w)) as (Hst1 & evs1 & Hlog1 & Hd1).
    split.
    + rewrite Hst, Hst1. reflexivity.
    + exists (evs1 ++ evs2). split.
      * rewrite Hlog2, Hlog1. simpl. by rewrite app_assoc.
      * rewrite forallb_app, Hd1, Hd2. reflexivity.
Qed.

(** C8. Dry-run create requests, however many and by whomever, leave the
    store as it was, and make no call but downloads: nothing is saved and
    no webhook is notified. A dry-run request of a logged-in user for a URL
    that is not registered, whose document is fetched and validates, is
    answered with [success: true] and the extracted version. *)
Theorem dryrun_create_no_persist (w : World) :
  (forall reqs,
     store (dryruns C reqs w) = store w /\
     size (store (dryruns C reqs w)) = size (store w) /\
     exists evs, log (dryruns C reqs w) = log w ++ evs /\
                 forallb is_download evs = true) /\
  (forall login u v,
     (forall i e, store w !! i = Some e -> url e <> u) ->
     fetch_error C (fetch C u) = None ->
     smartapi_validate C (file_raw (fetch C u)) = inr v ->
     outcome (SmartAPIHandler.post C (Some login) u true w)
     = Replied [("success", JBool true);
                ("details", JStr ("[Dryrun] Valid " +:+ v +:+ " Metadata"))]).
Proof.
  split.
  - intros reqs. destruct (dryruns_frame reqs w) as (Hst & Hev).
    split; [exact Hst|]. split; [by rewrite Hst | exact Hev].
  - intros login u v Hfree Hfetch Hvalid.
    unfold SmartAPIHandler.post, github_authenticated.
    unfold mbind, M_bind, bind, get_store.
    rewrite (find_unregistered (store w) u Hfree).
    rewrite bool_decide_eq_false_2 by (intros [? ?]; discriminate).
    unfold try_except, download_async, SmartAPIHandler.validated.
    unfold mbind, M_bind, bind, emit, lift, raise, mret, M_ret, ret. simpl.
    rewrite Hfetch. simpl. rewrite Hvalid. reflexivity.
Qed.

End Dryrun.

Lemma dryrun_create_no_persist_witness :
  store (dryruns Demo.C [(Some "bob", "https://example.org/new.json");
                         (None, "https://example.org/new.json");
                         (Some "bob", "https://example.org/new.json")] Demo.world)
  = store Demo.world /\
  outcome (SmartAPIHandler.post Demo.C (Some "bob") "https://example.org/new.json" true
             Demo.world)
  = Replied [("success", JBool true);
             ("details", JStr "[Dryrun] Valid 3.0.0 Metadata")].
Proof.
  split.
  - apply (proj1 (dryrun_create_no_persist Demo.C Demo.world)).
  - apply (proj2 (dryrun_create_no_persist Demo.C Demo.world) "bob"
             "https://example.org/new.json" "3.0.0").
    + intros i e Hi.
      assert (Hin : e = Demo.X \/ e = Demo.Y).
      { unfold Demo.world, Demo.registry in Hi. simpl in Hi.
        destruct (decide (i = "X")) as [->|HX].
        - rewrite lookup_insert_eq in Hi. left. congruence.
        - rewrite lookup_insert_ne in Hi by congruence.
          destruct (decide (i = "Y")) as [->|HY].
          + rewrite lookup_insert_eq in Hi. right. congruence.
          + rewrite lookup_insert_ne in Hi by congruence.
            rewrite lookup_empty in Hi. discriminate. }
      destruct Hin as [-> | ->]; discriminate.
    + reflexivity.
    + reflexivity.
Defined.

(** ** The relation query *)

Lemma getattr_setattr_eq (a : MetaKGArgs) (f : Field) (v : ArgVal) :
  getattr (setattr a f v) f = v.
Proof. destruct f; reflexivity. Qed.

Lemma getattr_setattr_ne (a : MetaKGArgs) (f g : Field) (v : ArgVal) :
  f <> g -> getattr (setattr a f v) g = getattr a g.
Proof. destruct f, g; congruence || reflexivity. Qed.

Lemma setattr_setattr_eq (a : MetaKGArgs) (f : Field) (v v' : ArgVal) :
  setattr (setattr a f v) f v' = setattr a f v'.
Proof. destruct f; reflexivity. Qed.

Lemma setattr_comm (a : MetaKGArgs) (f g : Field) (v v' : ArgVal) :
  f <> g -> setattr (setattr a f v) g v' = setattr (setattr a g v') f v.
Proof. destruct f, g; congruence || reflexivity. Qed.

Lemma arg_expand_setattr (a : MetaKGArgs) (f : Field) (v : ArgVal) :
  arg_expand (setattr a f v) = arg_expand a.
Proof. destruct f; reflexivity. Qed.

Lemma setattr_getattr (a : MetaKGArgs) (f : Field) :
  setattr a f (getattr a f) = a.
Proof. destruct a, f; reflexivity. Qed.

Section Expansion.

Context (C : Controller).

Lemma logged_nil (w : World) : logged w [] = w.
Proof. destruct w. unfold logged. simpl. by rewrite app_nil_r. Qed.

Lemma logged_logged (w : World) (evs evs' : list Event) :
  logged (logged w evs) evs' = logged w (evs ++ evs').
Proof. unfold logged. simpl. by rewrite app_assoc. Qed.

(** One turn of the loop, by cases. *)
Lemma expand_field_skip (t : bool) (a : MetaKGArgs) (f : Field) (w : World) :
  arg_truthy (getattr a f) = false ->
  MetaKGQueryHandler.expand_field C t a f w = (Ok a, w).
Proof.
  intros H. unfold MetaKGQueryHandler.expand_field. rewrite H. reflexivity.
Qed.

Lemma expand_field_wrap (a : MetaKGArgs) (f : Field) (v : string) (w : World) :
  getattr a f = AStr v -> v <> "" ->
  MetaKGQueryHandler.expand_field C false a f w = (Ok (setattr a f (AList [v])), w).
Proof.
  intros H Hv. unfold MetaKGQueryHandler.expand_field. rewrite H. simpl.
  destruct v; [congruence | reflexivity].
Qed.

Lemma expand_field_lookup (a : MetaKGArgs) (f : Field) (v : string) (w : World) :
  getattr a f = AStr v -> v <> "" ->
  MetaKGQueryHandler.expand_field C true a f w
  = match get_descendants C v with
    | inr terms => (Ok (setattr a f (AList terms)), logged w [EvDescendants v])
    | inl msg => (Raised (HTTPError 400 (Some (descendants_error f v msg))),
                  logged w [EvDescendants v])
    end.
Proof.
  intros H Hv. unfold MetaKGQueryHandler.expand_field. rewrite H. simpl.
  destruct v as [|c v]; [congruence|]. simpl.
  unfold mbind, M_bind, bind, try_except, call_get_descendants.
  unfold mbind, M_bind, bind, emit. simpl.
  destruct (get_descendants C (String c v)); reflexivity.
Qed.

Lemma expand_field_list (t : bool) (a : MetaKGArgs) (f : Field) (l : list string)
    (w : World) :
  getattr a f = AList l ->
  MetaKGQueryHandler.expand_field C t a f w = (Ok a, w).
Proof.
  intros H. unfold MetaKGQueryHandler.expand_field. rewrite H.
  destruct l; reflexivity.
Qed.

(** The loop when every lookup it makes succeeds: each field ends as
    [expand_spec] says, the other fields are as before, and the only calls
    are lookups. *)
Lemma expand_fields_ok (t : bool) (fields : list Field) :
  NoDup fields ->
  forall (a : MetaKGArgs) (w : World),
  (forall f, f ∈ fields -> ~ (t = true /\ unknown_term C a f)) ->
  exists a' evs,
    MetaKGQueryHandler.expand_fields C t fields a w = (Ok a', logged w evs) /\
    forallb is_descendants evs = true /\
    arg_expand a' = arg_expand a /\
    (forall f, f ∉ fields -> getattr a' f = getattr a f) /\
    (forall f, f ∈ fields -> getattr a' f = expand_spec C t (getattr a f)).
Proof.
  induction 1 as [|f0 fields Hnotin Hnodup IH]; intros a w Hknown.
  - exists a, []. simpl. rewrite logged_nil.
    repeat split; try reflexivity. intros f Hf. inversion Hf.
  - simpl. unfold mbind, M_bind, bind.
    (* the turn for f0 gives a1, equal to a outside f0 *)
    assert (Hturn : exists a1 evs1,
               MetaKGQueryHandler.expand_field C t a f0 w = (Ok a1, logged w evs1) /\
               forallb is_descendants evs1 = true /\
               a1 = setattr a f0 (expand_spec C t (getattr a f0))).
    { destruct (getattr a f0) as [|v|l] eqn:Hv.
      - exists a, []. rewrite logged_nil, expand_field_skip by (by rewrite Hv).
        repeat split; try reflexivity. simpl. by rewrite <- Hv, setattr_getattr.
      - destruct (decide (v = "")) as [->|Hne].
        + exists a, []. rewrite logged_nil, expand_field_skip by (by rewrite Hv).
          repeat split; try reflexivity. simpl. by rewrite <- Hv, setattr_getattr.
        + assert (Htr : Str.truthy v = true) by (destruct v; [congruence|reflexivity]).
          destruct t.
          * rewrite (expand_field_lookup a f0 v w Hv Hne). simpl. rewrite Htr.
            destruct (get_descendants C v) as [msg|terms] eqn:Hd.
            -- exfalso. apply (Hknown f0); [left|].
               split; [reflexivity|]. exists v, msg. auto.
            -- exists (setattr a f0 (AList terms)), [EvDescendants v]. auto.
          * rewrite (expand_field_wrap a f0 v w Hv Hne). simpl. rewrite Htr.
            exists (setattr a f0 (AList [v])), []. rewrite logged_nil. auto.
      - exists a, []. rewrite logged_nil, (expand_field_list t a f0 l w Hv).
        repeat split; try reflexivity. simpl. by rewrite <- Hv, setattr_getattr. }
    destruct Hturn as (a1 & evs1 & -> & Hev1 & Ha1).
    assert (Hsame : forall f, f <> f0 -> getattr a1 f = getattr a f).
    { intros f Hf. rewrite Ha1. apply getattr_setattr_ne. congruence. }
    destruct (IH a1 (logged w evs1)) as (a' & evs2 & Hrun & Hev2 & Hexp & Hout & Hin).
    { intros f Hf [Ht (v & msg & Hv & Hne & Hd)].
      apply (Hknown f); [by right|]. split; [exact Ht|].
      exists v, msg. rewrite <- Hsame; [auto|]. intros ->. contradiction. }
    exists a', (evs1 ++ evs2). rewrite Hrun, logged_logged.
    split; [reflexivity|]. split; [by rewrite forallb_app, Hev1, Hev2|].
    split; [by rewrite Hexp, Ha1, arg_expand_setattr|].
    split.
    + intros f Hf. rewrite Hout by (intros ?; apply Hf; by right).
      apply Hsame. intros ->. apply Hf. by left.
    + intros f Hf. apply elem_of_cons in Hf as [->|Hf].
      * rewrite (Hout f0 Hnotin), Ha1. apply getattr_setattr_eq.
      * rewrite (Hin f Hf), Hsame; [reflexivity|]. intros ->. contradiction.
Qed.

(** The loop when the toolkit does not know the value of some field: the
    first such field, in the order of the loop, ends the request. *)
Lemma expand_fields_fail (fields : list Field) :
  NoDup fields ->
  forall (a : MetaKGArgs) (w : World),
  (exists f, f ∈ fields /\ unknown_term C a f) ->
  exists f v msg evs,
    f ∈ fields /\ getattr a f = AStr v /\ v <> "" /\ get_descendants C v = inl msg /\
    MetaKGQueryHandler.expand_fields C true fields a w
    = (Raised (HTTPError 400 (Some (descendants_error f v msg))), logged w evs) /\
    forallb is_descendants evs = true.
Proof.
  induction 1 as [|f0 fields Hnotin Hnodup IH]; intros a w (f & Hf & Hbad).
  - inversion Hf.
  - simpl. unfold mbind, M_bind, bind.
    (* either the turn for f0 fails, or it passes and leaves the others as they are *)
    assert (Hturn :
      (exists v msg, getattr a f0 = AStr v /\ v <> "" /\ get_descendants C v = inl msg /\
         MetaKGQueryHandler.expand_field C true a f0 w
         = (Raised (HTTPError 400 (Some (descendants_error f0 v msg))),
            logged w [EvDescendants v])) \/
      (~ unknown_term C a f0 /\
       exists a1 evs1,
         MetaKGQueryHandler.expand_field C true a f0 w = (Ok a1, logged w evs1) /\
         forallb is_descendants evs1 = true /\
         forall g, g <> f0 -> getattr a1 g = getattr a g)).
    { destruct (getattr a f0) as [|v|l] eqn:Hv.
      - right. split; [intros (? & ? & ? & _); congruence|].
        exists a, []. rewrite logged_nil, expand_field_skip by (by rewrite Hv). auto.
      - destruct (decide (v = "")) as [->|Hne].
        + right. split; [intros (? & ? & ? & ? & _); congruence|].
          exists a, []. rewrite logged_nil, expand_field_skip by (by rewrite Hv). auto.
        + rewrite (expand_field_lookup a f0 v w Hv Hne).
          destruct (get_descendants C v) as [msg|terms] eqn:Hd.
          * left. exists v, msg. auto.
          * right. split; [intros (? & ? & ? & ? & ?); congruence|].
            exists (setattr a f0 (AList terms)), [EvDescendants v].
            repeat split; try reflexivity.
            intros g Hg. apply getattr_setattr_ne. congruence.
      - right. split; [intros (? & ? & ? & _); congruence|].
        exists a, []. rewrite logged_nil, (expand_field_list true a f0 l w Hv). auto. }
    destruct Hturn as [(v & msg & Hv & Hne & Hd & ->)
                      | (Hgood & a1 & evs1 & -> & Hev1 & Hsame)].
    + exists f0, v, msg, [EvDescendants v].
      repeat split; try assumption; try reflexivity. by left.
    + apply elem_of_cons in Hf as [->|Hf]; [contradiction|].
      assert (Hne0 : f <> f0) by (intros ->; contradiction).
      destruct (IH a1 (logged w evs1)) as (f' & v & msg & evs2 & Hf' & Hv & Hne & Hd & Hrun & Hev2).
      { exists f. split; [exact Hf|].
        destruct Hbad as (v & msg & Hv & Hne & Hd).
        exists v, msg. rewrite (Hsame f Hne0). auto. }
      exists f', v, msg, (evs1 ++ evs2).
      rewrite Hrun, logged_logged.
      assert (f' <> f0) by (intros ->; contradiction).
      repeat split; try assumption; try reflexivity.
      * by right.
      * rewrite <- (Hsame f') by assumption. exact Hv.
      * by rewrite forallb_app, Hev1, Hev2.
Qed.

(** A turn of the loop for one field does not look at another field. *)
Lemma expand_field_other (t : bool) (a : MetaKGArgs) (f f0 : Field) (x : ArgVal)
    (w : World) :
  f <> f0 ->
  MetaKGQueryHandler.expand_field C t (setattr a f x) f0 w
  = match MetaKGQueryHandler.expand_field C t a f0 w with
    | (Ok a1, w1) => (Ok (setattr a1 f x), w1)
    | (Raised e, w1) => (Raised e, w1)
    end.
Proof.
  intros Hne. unfold MetaKGQueryHandler.expand_field.
  rewrite (getattr_setattr_ne a f f0 x Hne).
  destruct (getattr a f0) as [|v|l]; simpl; try reflexivity.
  - destruct (Str.truthy v); simpl; [|reflexivity].
    destruct t.
    + unfold mbind, M_bind, bind, try_except, call_get_descendants.
      unfold mbind, M_bind, bind, emit. simpl.
      destruct (get_descendants C v); simpl; [reflexivity|].
      unfold mret, M_ret, ret. by rewrite (setattr_comm a f f0 x _ Hne).
    + unfold mret, M_ret, ret. by rewrite (setattr_comm a f f0 x _ Hne).
  - destruct l; reflexivity.
Qed.

(** The loop on a request with an empty value in a field runs as on the
    request without the field. *)
Lemma expand_fields_empty (t : bool) (f : Field) (fields : list Field) :
  forall (a : MetaKGArgs) (w : World),
  MetaKGQueryHandler.expand_fields C t fields (setattr a f (AStr "")) w
  = restore_empty f
      (MetaKGQueryHandler.expand_fields C t fields (setattr a f ANone) w).
Proof.
  induction fields as [|f0 fields IH]; intros a w.
  - simpl. unfold mret, M_ret, ret. simpl. by rewrite setattr_setattr_eq.
  - simpl. unfold mbind, M_bind, bind.
    destruct (decide (f = f0)) as [<-|Hne].
    + rewrite !expand_field_skip by (by rewrite getattr_setattr_eq). apply IH.
    + rewrite !(expand_field_other t a f f0 _ w Hne).
      destruct (MetaKGQueryHandler.expand_field C t a f0 w) as [[a1|e] w1].
      * apply IH.
      * reflexivity.
Qed.

End Expansion.

Lemma fields_NoDup : NoDup [subject; object; predicate].
Proof.
  repeat constructor; rewrite ?elem_of_cons; intros H;
    repeat (destruct H as [H|H]; [discriminate|]); inversion H.
Qed.

Lemma fields_all (f : Field) : f ∈ [subject; object; predicate].
Proof. destruct f; rewrite !elem_of_cons; auto. Qed.

Section RelationQuery.

Context (C : Controller).

(** C4 (as amended). In a relation query whose lookups all succeed, a
    field that is present is replaced by exactly the list the taxonomy
    expander returns for its value when [expand] is true (the handler adds
    nothing to it), and by the single-element list of its value when
    [expand] is false; a field that is absent stays absent. The query then
    runs with these arguments. *)
Theorem expansion_replaces_present_fields (s o p : option string) (expand : bool)
    (w : World) :
  let a := parsed s o p expand in
  (forall f, ~ (expand = true /\ unknown_term C a f)) ->
  exists a' evs,
    MetaKGQueryHandler.get C a w = MetaKGQueryHandler.super_get C a' (logged w evs) /\
    forallb is_descendants evs = true /\
    arg_expand a' = expand /\
    (forall f v terms,
       getattr a f = AStr v -> v <> "" -> expand = true ->
       get_descendants C v = inr terms -> getattr a' f = AList terms) /\
    (forall f v,
       getattr a f = AStr v -> v <> "" -> expand = false ->
       getattr a' f = AList [v]) /\
    (forall f, getattr a f = ANone -> getattr a' f = ANone).
Proof.
  intros a Hknown.
  destruct (expand_fields_ok C expand [subject; object; predicate] fields_NoDup a w)
    as (a' & evs & Hrun & Hev & Hexp & _ & Hin).
  { intros f _. apply Hknown. }
  exists a', evs.
  split.
  { unfold MetaKGQueryHandler.get. unfold mbind at 1, M_bind at 1, bind at 1.
    replace (arg_expand a) with expand by (by destruct s, o, p).
    rewrite Hrun. reflexivity. }
  split; [exact Hev|].
  split; [rewrite Hexp; by destruct s, o, p|].
  assert (Htr : forall v, v <> "" -> Str.truthy v = true)
    by (intros [|? ?]; [congruence | reflexivity]).
  repeat split.
  - intros f v terms Hv Hne -> Hd.
    rewrite (Hin f (fields_all f)), Hv. simpl. by rewrite (Htr v Hne), Hd.
  - intros f v Hv Hne ->.
    rewrite (Hin f (fields_all f)), Hv. simpl. by rewrite (Htr v Hne).
  - intros f Hv. rewrite (Hin f (fields_all f)), Hv. reflexivity.
Qed.

Lemma string_app_assoc (a b c : string) : (a +:+ b) +:+ c = a +:+ b +:+ c.
Proof.
  induction a as [|x a IH]; [reflexivity|].
  change (String x ((a +:+ b) +:+ c) = String x (a +:+ b +:+ c)).
  by rewrite IH.
Qed.

(** The reason of the error names the field and the value. *)
Lemma reason_names_field_and_value (f : Field) (v msg : string) :
  descendants_error f v msg
  = "Cannot get descendants for field: `" +:+ field_name f
    +:+ "` with value: `" +:+ v +:+ "`. Error: " +:+ msg /\
  Str.occurs_in (field_name f) (descendants_error f v msg) /\
  Str.occurs_in v (descendants_error f v msg).
Proof.
  split; [reflexivity|]. split.
  - exists "Cannot get descendants for field: `",
           ("` with value: `" +:+ v +:+ "`. Error: " +:+ msg).
    reflexivity.
  - exists ("Cannot get descendants for field: `" +:+ field_name f
            +:+ "` with value: `"),
           ("`. Error: " +:+ msg).
    unfold descendants_error. by rewrite !string_app_assoc.
Qed.

(** C5. In a relation query with [expand] true, when the toolkit does not
    know the value of a present field, the request fails with 400 and the
    reason "Cannot get descendants for field: `<field>` with value:
    `<value>`. Error: <error>", in which the name of such a field and its
    value occur; the only calls made are taxonomy lookups, so the document
    store is not queried. *)
Theorem unknown_term_fails_request (s o p : option string) (w : World) :
  let a := parsed s o p true in
  (exists f, unknown_term C a f) ->
  exists f v msg evs,
    let reason :=
      "Cannot get descendants for field: `" +:+ field_name f
      +:+ "` with value: `" +:+ v +:+ "`. Error: " +:+ msg in
    getattr a f = AStr v /\ v <> "" /\ get_descendants C v = inl msg /\
    MetaKGQueryHandler.get C a w = (Raised (HTTPError 400 (Some reason)), logged w evs) /\
    outcome (MetaKGQueryHandler.get C a w) = Failed 400 (Some reason) /\
    Str.occurs_in (field_name f) reason /\
    Str.occurs_in v reason /\
    forallb is_descendants evs = true /\
    existsb is_query evs = false.
Proof.
  intros a (f & Hbad).
  destruct (expand_fields_fail C [subject; object; predicate] fields_NoDup a w)
    as (f' & v & msg & evs & _ & Hv & Hne & Hd & Hrun & Hev).
  { exists f. split; [apply fields_all | exact Hbad]. }
  exists f', v, msg, evs.
  destruct (reason_names_field_and_value f' v msg) as (Hreason & Hfield & Hvalue).
  rewrite Hreason in Hrun, Hfield, Hvalue.
  assert (Hget : MetaKGQueryHandler.get C a w
                 = (Raised (HTTPError 400 (Some (
                      "Cannot get descendants for field: `" +:+ field_name f'
                      +:+ "` with value: `" +:+ v +:+ "`. Error: " +:+ msg))),
                    logged w evs)).
  { unfold MetaKGQueryHandler.get. unfold mbind at 1, M_bind at 1, bind at 1.
    replace (arg_expand a) with true by (by destruct s, o, p).
    rewrite Hrun. reflexivity. }
  cbv zeta. rewrite Hget. repeat split; try assumption.
  clear -Hev. induction evs as [|ev evs IH]; [reflexivity|].
  simpl in *. apply andb_true_iff in Hev as [Hd Hev].
  rewrite (IH Hev). destruct ev; try discriminate. reflexivity.
Qed.

(** C10. In the relation query, a field whose value is the empty string
    is skipped like an absent field: its turn of the loop makes no call,
    raises nothing and leaves the arguments as they are, with [expand] true
    or false, and the whole loop runs as it does on the request without
    the field, the empty value staying in place. *)
Theorem empty_value_is_skipped (t : bool) (a : MetaKGArgs) (f : Field) (w : World) :
  MetaKGQueryHandler.expand_field C t (setattr a f (AStr "")) f w
  = (Ok (setattr a f (AStr "")), w) /\
  MetaKGQueryHandler.expand_field C t (setattr a f ANone) f w
  = (Ok (setattr a f ANone), w) /\
  MetaKGQueryHandler.expand_fields C t [subject; object; predicate]
    (setattr a f (AStr "")) w
  = restore_empty f
      (MetaKGQueryHandler.expand_fields C t [subject; object; predicate]
         (setattr a f ANone) w).
Proof.
  split; [|split].
  - apply expand_field_skip. by rewrite getattr_setattr_eq.
  - apply expand_field_skip. by rewrite getattr_setattr_eq.
  - apply expand_fields_empty.
Qed.

End RelationQuery.

Lemma expansion_replaces_present_fields_witness :
  exists a' evs,
    MetaKGQueryHandler.get Demo.C (parsed (Some "gene") None (Some "disease") true) Demo.world
    = MetaKGQueryHandler.super_get Demo.C a' (logged Demo.world evs) /\
    getattr a' subject = AList ["gene"; "protein coding gene"] /\
    getattr a' object = ANone /\
    getattr a' predicate = AList ["disease"].
Proof.
  destruct (expansion_replaces_present_fields Demo.C (Some "gene") None (Some "disease")
              true Demo.world)
    as (a' & evs & Hrun & _ & _ & Hexp & _ & Habs).
  - intros f [_ (v & msg & Hv & _ & Hd)].
    destruct f; simpl in Hv; try discriminate;
      injection Hv as <-; vm_compute in Hd; discriminate.
  - exists a', evs. split; [exact Hrun|].
    split; [apply (Hexp subject "gene"); (reflexivity || discriminate)|].
    split; [apply (Habs object); reflexivity|].
    apply (Hexp predicate "disease"); (reflexivity || discriminate).
Defined.

Lemma unknown_term_fails_request_witness :
  exists f v msg evs,
    let reason :=
      "Cannot get descendants for field: `" +:+ field_name f
      +:+ "` with value: `" +:+ v +:+ "`. Error: " +:+ msg in
    getattr (parsed (Some "gene") (Some "zzz") None true) f = AStr v /\ v <> "" /\
    get_descendants Demo.C v = inl msg /\
    MetaKGQueryHandler.get Demo.C (parsed (Some "gene") (Some "zzz") None true) Demo.world
    = (Raised (HTTPError 400 (Some reason)), logged Demo.world evs) /\
    outcome (MetaKGQueryHandler.get Demo.C (parsed (Some "gene") (Some "zzz") None true)
               Demo.world)
    = Failed 400 (Some reason) /\
    Str.occurs_in (field_name f) reason /\
    Str.occurs_in v reason /\
    forallb is_descendants evs = true /\
    existsb is_query evs = false.
Proof.
  apply (unknown_term_fails_request Demo.C (Some "gene") (Some "zzz") None Demo.world).
  exists object, "zzz", "unknown term". repeat split. discriminate.
Defined.

(** The reason of the witness, in full. *)
Example unknown_term_reason :
  outcome (MetaKGQueryHandler.get Demo.C (parsed (Some "gene") (Some "zzz") None true)
             Demo.world)
  = Failed 400 (Some
      "Cannot get descendants for field: `object` with value: `zzz`. Error: unknown term").
Proof. reflexivity. Qed.

(** C4 as stated fails: for the value "Gene" the toolkit answers with the
    names "gene" and "protein coding gene"; the field becomes this list, in
    which the value itself does not occur. *)
Lemma expansion_omits_value_counterexample :
  get_descendants Demo.C "Gene" = inr ["gene"; "protein coding gene"] /\
  exists a',
    MetaKGQueryHandler.get Demo.C (parsed (Some "Gene") None None true) Demo.world
    = MetaKGQueryHandler.super_get Demo.C a' (logged Demo.world [EvDescendants "Gene"]) /\
    getattr a' subject = AList ["gene"; "protein coding gene"] /\
    "Gene" ∉ ["gene"; "protein coding gene"].
Proof.
  split; [reflexivity|].
  exists (mkArgs (AList ["gene"; "protein coding gene"]) ANone ANone true).
  split; [reflexivity|]. split; [reflexivity|].
  rewrite !elem_of_cons, elem_of_nil. intros [H|[H|H]]; [discriminate..|contradiction].
Qed.

(** * Further properties of the handlers *)

Ltac run_monad :=
  unfold mbind, M_bind, bind, mret, M_ret, ret, try_except, raise, lift,
         emit, get_store, put_store, finish, send_error; simpl.

(** ** The login guard *)

(** X1. Without a logged-in user, a create, an update, a refresh, a
    deletion and an uptime check all end in [send_error] with the status 401
    (and the message "You must log in first." handed to it): the store is as
    it was and no call is made. *)
Theorem login_required (C : Controller) (w : World) (u i body : string)
    (dryrun : bool) (args_slug : option string) :
  let refused := (Ok tt, with_reply (ErrorSent 401 "You must log in first.") w) in
  SmartAPIHandler.post C None u dryrun w = refused /\
  SmartAPIHandler.put C None i args_slug w = refused /\
  SmartAPIHandler.delete C None i w = refused /\
  UptimeHandler.get C None body i w = refused /\
  UptimeHandler.post C None i w = refused /\
  outcome refused = ErrorPage 401 "You must log in first." /\
  store (snd refused) = store w /\ log (snd refused) = log w.
Proof. repeat split. Qed.

(** ** Slug updates *)

Section Slug.

Context (C : Controller).

(** The value [put] assigns to the slug: [args.slug or None]. *)
Lemma slug_or_None (s : string) :
  (if Str.truthy s then Some s else None)
  = (if decide (s = "") then None else Some s).
Proof. destruct s; reflexivity. Qed.

(** X2. The slug "api" is reserved: the owner's request to set it fails
    with 400 "slug is reserved" before the slug is assigned or the entry
    saved; the world is as it was. *)
Theorem reserved_slug_refused (w : World) (login i : string) (e : SmartAPI) :
  store w !! i = Some e ->
  username e = login ->
  SmartAPIHandler.put C (Some login) i (Some "api") w
  = (Raised (HTTPError 400 (Some "slug is reserved")), w).
Proof.
  intros Hi Hu. unfold SmartAPIHandler.put, github_authenticated.
  unfold mbind, M_bind, bind, try_except, SmartAPI_get. rewrite Hi. simpl.
  rewrite Hu, String.eqb_refl. reflexivity.
Qed.

(** X3. A slug update by the owner with a slug that is not reserved assigns
    the slug, or no slug when the request carries the empty string, saves
    the entry, and answers [success: true]; the save is the only call. *)
Theorem slug_update_saves (w : World) (login i s : string) (e e' : SmartAPI)
    (j : string) (st' : gmap string SmartAPI) :
  store w !! i = Some e ->
  username e = login ->
  s <> "api" ->
  smartapi_set_slug C e (if decide (s = "") then None else Some s) (store w) = inr e' ->
  smartapi_save C e' (store w) = inr (j, st') ->
  SmartAPIHandler.put C (Some login) i (Some s) w
  = (Ok tt, {| store := st';
               log := log w ++ [EvSave (_id e')];
               reply := Some (Body [("success", JBool true)]) |}).
Proof.
  intros Hi Hu Hs Hset Hsave. unfold SmartAPIHandler.put, github_authenticated.
  unfold mbind, M_bind, bind, try_except, SmartAPI_get. rewrite Hi. simpl.
  rewrite Hu, String.eqb_refl. simpl. unfold SmartAPIHandler.put_slug.
  apply String.eqb_neq in Hs. rewrite Hs.
  unfold call_set_slug, call_save. run_monad.
  rewrite slug_or_None, Hset. simpl. rewrite Hsave. reflexivity.
Qed.

(** X4. When the assignment of the slug or the save raises a
    [ControllerError] or a [ValueError], the slug update fails with 400 and
    the message of the error, and the store is as it was. *)
Theorem slug_update_error (w : World) (login i s : string) (e : SmartAPI) (err : Exc) :
  store w !! i = Some e ->
  username e = login ->
  s <> "api" ->
  is_ControllerError err || is_ValueError err = true ->
  (smartapi_set_slug C e (if decide (s = "") then None else Some s) (store w) = inl err \/
   exists e', smartapi_set_slug C e (if decide (s = "") then None else Some s) (store w)
              = inr e' /\
              smartapi_save C e' (store w) = inl err) ->
  let r := SmartAPIHandler.put C (Some login) i (Some s) w in
  outcome r = Failed 400 (Some (exc_str err)) /\ store (snd r) = store w.
Proof.
  intros Hi Hu Hs Herr Hfail. unfold SmartAPIHandler.put, github_authenticated.
  unfold mbind, M_bind, bind, try_except, SmartAPI_get. rewrite Hi. simpl.
  rewrite Hu, String.eqb_refl. simpl. unfold SmartAPIHandler.put_slug.
  apply String.eqb_neq in Hs. rewrite Hs.
  unfold call_set_slug, call_save. run_monad. rewrite slug_or_None.
  destruct Hfail as [Hset | (e' & Hset & Hsave)]; rewrite Hset; simpl.
  - rewrite Herr. simpl. auto.
  - rewrite Hsave. simpl. rewrite Herr. simpl. auto.
Qed.

End Slug.

Lemma reserved_slug_refused_witness :
  SmartAPIHandler.put Demo.C (Some "alice") "X" (Some "api") Demo.world
  = (Raised (HTTPError 400 (Some "slug is reserved")), Demo.world).
Proof.
  apply (reserved_slug_refused Demo.C Demo.world "alice" "X" Demo.X); reflexivity.
Defined.

Lemma slug_update_saves_witness :
  SmartAPIHandler.put Demo.C (Some "alice") "Y" (Some "") Demo.world
  = (Ok tt, {| store := <["Y" := Spec.with_slug Demo.Y None]> Demo.registry;
               log := [EvSave "Y"];
               reply := Some (Body [("success", JBool true)]) |}).
Proof.
  apply (slug_update_saves Demo.C Demo.world "alice" "Y" "" Demo.Y
           (Spec.with_slug Demo.Y None) "Y"
           (<["Y" := Spec.with_slug Demo.Y None]> Demo.registry));
    (reflexivity || discriminate).
Defined.

Lemma slug_update_error_witness :
  let r := SmartAPIHandler.put Demo.C (Some "alice") "X" (Some "odd") Demo.world in
  outcome r = Failed 400 (Some "slug is already registered") /\
  store (snd r) = store Demo.world.
Proof.
  apply (slug_update_error Demo.C Demo.world "alice" "X" "odd" Demo.X
           (ControllerError "slug is already registered"));
    [reflexivity | reflexivity | discriminate | reflexivity |].
  left. vm_compute. reflexivity.
Defined.

(** ** Requests that fail, and the calls a request makes *)

Ltac break_match :=
  match goal with
  | |- context [match ?x with _ => _ end] =>
      lazymatch x with
      | context [match _ with _ => _ end] => fail
      | _ => destruct x eqn:?
      end
  end.

Ltac unfold_handlers :=
  unfold SmartAPIHandler.put, SmartAPIHandler.delete, SmartAPIHandler.put_slug,
         SmartAPIHandler.put_refresh, UptimeHandler.get, UptimeHandler.post,
         UptimeHandler.uptime_check, github_authenticated, SmartAPI_get,
         download_async, call_refresh, call_save, call_delete, call_check,
         call_set_slug, call_STATUS;
  run_monad.

Section Mutations.

Context (C : Controller).

(** X5. An operation on an entry that is not answered with a body (it
    failed with an HTTP error, or an exception escaped) leaves the store as
    it was: the store changes only through a save or a deletion that
    succeeded, and the request is then answered. *)
Theorem failed_mutation_keeps_store (w : World) (login i : string) (op : Mutation) :
  let r := mutate C login i op w in
  (exists p, outcome r = Replied p) \/ store (snd r) = store w.
Proof.
  destruct op; simpl; unfold_handlers;
    repeat (break_match; simpl);
    first [right; reflexivity | left; eexists; reflexivity].
Qed.

(** X6. The calls an operation makes: a slug update only saves (it never
    downloads the document), a deletion only deletes, an uptime check only
    checks and saves, and a refresh downloads, refreshes and saves. *)
Theorem mutation_calls (w : World) (login i : string) (op : Mutation) :
  exists evs,
    log (snd (mutate C login i op w)) = log w ++ evs /\
    forallb (may_call op) evs = true.
Proof.
  destruct op; simpl; unfold_handlers;
    repeat (break_match; simpl);
    rewrite <- ?app_assoc; simpl;
    first [ exists []; split; [by rewrite app_nil_r | reflexivity]
          | eexists; split; reflexivity ].
Qed.

End Mutations.

(** ** Creation and its notification *)

Section Create.

Context (C : Controller).

(** The loop of [_notify] over a list of webhooks: it posts to some of
    them, in their order, and stops at the first exception. *)
Lemma notify_loop (smartapi : SmartAPI) (kwargs : Payload) (slacks : list Slack)
    (w : World) :
  exists res hooks,
    SmartAPIHandler.for_each (SmartAPIHandler.notify_one C smartapi kwargs) slacks w
    = (res, logged w (map EvWebhook hooks)) /\
    sublist hooks (map webhook slacks).
Proof.
  revert w. induction slacks as [|slack slacks IH]; intros w.
  - exists (Ok tt), []. simpl. rewrite logged_nil. split; [reflexivity | constructor].
  - simpl. unfold mbind at 1, M_bind at 1, bind at 1.
    assert (Hturn :
      SmartAPIHandler.notify_one C smartapi kwargs slack w = (Ok tt, w) \/
      SmartAPIHandler.notify_one C smartapi kwargs slack w
      = (Ok tt, logged w [EvWebhook (webhook slack)]) \/
      exists e evs,
        SmartAPIHandler.notify_one C smartapi kwargs slack w
        = (Raised e, logged w (map EvWebhook evs)) /\
        sublist evs [webhook slack]).
    { unfold SmartAPIHandler.notify_one.
      destruct (tags slack) as [t|].
      - destruct (String.eqb t "translator"); [|left; reflexivity].
        run_monad. destruct (has_x_translator C smartapi) as [e|[|]]; simpl.
        + right. right. exists e, []. rewrite logged_nil.
          split; [reflexivity | apply sublist_nil_l].
        + destruct (client_fetch C (webhook slack) true kwargs) as [e|[]]; simpl.
          * right. right. exists e, [webhook slack]. split; reflexivity.
          * right. left. reflexivity.
        + left. reflexivity.
      - run_monad.
        destruct (client_fetch C (webhook slack) false kwargs) as [e|[]]; simpl.
        + right. right. exists e, [webhook slack]. split; reflexivity.
        + right. left. reflexivity. }
    destruct Hturn as [-> | [-> | (e & evs & -> & Hsub)]].
    + destruct (IH w) as (res & hooks & -> & Hsub).
      exists res, hooks. split; [reflexivity | by apply sublist_cons_r; left].
    + destruct (IH (logged w [EvWebhook (webhook slack)])) as (res & hooks & -> & Hsub).
      exists res, (webhook slack :: hooks). rewrite logged_logged.
      split; [reflexivity | by apply sublist_skip].
    + exists (Raised e), evs. split; [reflexivity|].
      transitivity [webhook slack]; [exact Hsub|].
      apply sublist_skip, sublist_nil_l.
Qed.

(** A notification that got its kwargs returns, whatever its posts do. *)
Lemma notify_run (smartapi : SmartAPI) (kwargs : Payload) (w : World) :
  debug C = false ->
  notify_kwargs C smartapi = inr kwargs ->
  exists hooks errs,
    SmartAPIHandler._notify C smartapi w
    = (Ok tt, logged w (map EvWebhook hooks ++ errs)) /\
    (errs = [] \/ exists msg, errs = [EvLogError msg]) /\
    (forall slacks, SLACK_WEBHOOKS C = inr slacks -> sublist hooks (map webhook slacks)) /\
    (forall e, SLACK_WEBHOOKS C = inl e -> hooks = [] /\ errs = [EvLogError (exc_str e)]).
Proof.
  intros Hdebug Hkw. unfold SmartAPIHandler._notify. rewrite Hdebug.
  unfold mbind at 1, M_bind at 1, bind at 1. rewrite Hkw. simpl.
  unfold try_except. unfold mbind, M_bind, bind.
  destruct (SLACK_WEBHOOKS C) as [e|slacks]; simpl.
  - exists [], [EvLogError (exc_str e)]. unfold emit. simpl.
    split; [reflexivity|]. split; [right; eauto|].
    split; [discriminate|]. intros e' [= <-]. auto.
  - destruct (notify_loop smartapi kwargs slacks w) as (res & hooks & -> & Hsub).
    destruct res as [[]|e]; simpl.
    + exists hooks, []. rewrite app_nil_r.
      split; [reflexivity|]. split; [by left|].
      split; [by intros ? [= <-] | discriminate].
    + exists hooks, [EvLogError (exc_str e)]. unfold emit. simpl.
      unfold with_event, logged. simpl. rewrite <- app_assoc.
      split; [reflexivity|]. split; [right; eauto|].
      split; [by intros ? [= <-] | discriminate].
Qed.

Lemma notification_events (hooks : list string) (errs : list Event) :
  (errs = [] \/ exists msg, errs = [EvLogError msg]) ->
  forallb is_notification (map EvWebhook hooks ++ errs) = true.
Proof.
  intros Herrs. rewrite forallb_app. apply andb_true_iff. split.
  - induction hooks; [reflexivity | assumption].
  - destruct Herrs as [-> | (msg & ->)]; reflexivity.
Qed.

(** The notification at the end of [post]: it returns, and makes no call
    but posts to webhooks and error logs. *)
Lemma after_notify (smartapi : SmartAPI) (w : World) :
  exists evs,
    SmartAPIHandler.after_finish (SmartAPIHandler._notify C smartapi) w
    = (Ok tt, logged w evs) /\
    forallb is_notification evs = true.
Proof.
  unfold SmartAPIHandler.after_finish.
  destruct (debug C) eqn:Hdebug.
  { exists []. unfold SmartAPIHandler._notify. rewrite Hdebug. simpl.
    by rewrite logged_nil. }
  destruct (notify_kwargs C smartapi) as [e|kwargs] eqn:Hkw.
  - unfold SmartAPIHandler._notify. rewrite Hdebug.
    unfold mbind at 1, M_bind at 1, bind at 1. rewrite Hkw. simpl.
    destruct e; simpl;
      first [ exists []; rewrite logged_nil; split; reflexivity
            | eexists; unfold with_event, logged; split; reflexivity ].
  - destruct (notify_run smartapi kwargs w Hdebug Hkw) as (hooks & errs & -> & Herrs & _).
    exists (map EvWebhook hooks ++ errs). split; [reflexivity|].
    by apply notification_events.
Qed.


(** X8. A create request of a logged-in user for a URL that is not
    registered, whose document is fetched, validates, and is refreshed and
    saved, is answered with [success: true] and the id the save returned,
    and the store is the one the save left; the notification that follows,
    whatever becomes of it, changes neither, and makes no call but posts to
    webhooks and error logs. *)
Theorem create_registers (w : World) (login u v : string) (e' : SmartAPI)
    (code : option Z) (i : string) (st' : gmap string SmartAPI) :
  (forall j e, store w !! j = Some e -> url e <> u) ->
  fetch_error C (fetch C u) = None ->
  smartapi_validate C (file_raw (fetch C u)) = inr v ->
  smartapi_refresh C (created C login u v) (fetch C u) = (e', code) ->
  smartapi_save C e' (store w) = inr (i, st') ->
  let r := SmartAPIHandler.post C (Some login) u false w in
  outcome r = Replied [("success", JBool true); ("_id", JStr i)] /\
  store (snd r) = st' /\
  exists evs,
    log (snd r)
    = log w ++ [EvDownload u; EvRefresh (new_id C u); EvSave (_id e')] ++ evs /\
    forallb is_notification evs = true.
Proof.
  intros Hfree Hfetch Hvalid Hrefresh Hsave.
  unfold SmartAPIHandler.post, github_authenticated.
  unfold mbind, M_bind, bind, get_store.
  rewrite (find_unregistered (store w) u Hfree).
  rewrite bool_decide_eq_false_2 by (intros [? ?]; discriminate).
  unfold try_except, download_async, SmartAPIHandler.validated.
  unfold mbind, M_bind, bind, emit, lift, raise, mret, M_ret, ret. simpl.
  rewrite Hfetch. simpl. rewrite Hvalid. simpl.
  unfold call_refresh, call_save. run_monad.
  unfold SmartAPIHandler.set_username. simpl.
  unfold created in Hrefresh. rewrite Hrefresh. simpl. rewrite Hsave. simpl.
  match goal with
  | |- context [SmartAPIHandler.after_finish _ ?w0] =>
      destruct (after_notify e' w0) as (evs & -> & Hevs)
  end.
  simpl. split; [reflexivity|]. split; [reflexivity|].
  exists evs. split; [by rewrite <- !app_assoc | exact Hevs].
Qed.

(** X9. A create request either is answered with [success: true] and the
    id of the new entry, or leaves the store as it was; a dry run always
    leaves the store as it was. *)
Theorem failed_create_keeps_store (w : World) (user : option string) (u : string)
    (dryrun : bool) :
  let r := SmartAPIHandler.post C user u dryrun w in
  (dryrun = false /\
   exists i, outcome r = Replied [("success", JBool true); ("_id", JStr i)]) \/
  store (snd r) = store w.
Proof.
  unfold SmartAPIHandler.post, github_authenticated.
  destruct user as [login|]; [|right; reflexivity].
  unfold SmartAPIHandler.validated, download_async, call_refresh, call_save.
  run_monad.
  destruct (bool_decide _); simpl; [right; reflexivity|].
  destruct (fetch_error C (fetch C u)); simpl; [right; reflexivity|].
  destruct (smartapi_validate C (file_raw (fetch C u))) as [err|v]; simpl.
  { destruct (is_ControllerError err || is_AssertionError err); right; reflexivity. }
  destruct dryrun; simpl; [right; reflexivity|].
  destruct (smartapi_refresh C _ (fetch C u)) as [e' code]; simpl.
  destruct (smartapi_save C e' (store w)) as [err|[i st']]; simpl.
  { destruct (is_ControllerError err); right; reflexivity. }
  match goal with
  | |- context [SmartAPIHandler.after_finish _ ?w0] =>
      destruct (after_notify e' w0) as (evs & -> & _)
  end.
  simpl. left. split; [reflexivity|]. by exists i.
Qed.

End Create.


(** The run of the witness: the translator webhook is skipped, the post to
    the third webhook fails, and the fourth is not reached. *)
Example notify_stops_at_failure :
  SmartAPIHandler._notify Hooks.C Demo.X Demo.world
  = (Ok tt, logged Demo.world [EvWebhook "https://hooks.example.org/a";
                               EvWebhook "https://hooks.example.org/b";
                               EvLogError "HTTP 599: Timeout"]).
Proof. reflexivity. Qed.


(** The two entries of the demo registry. *)
Lemma demo_registry_urls (u : string) :
  u <> "https://example.org/api.json" ->
  u <> "https://example.org/odd.json" ->
  forall j e, store Demo.world !! j = Some e -> url e <> u.
Proof.
  intros HX HY j e Hj.
  assert (Hin : e = Demo.X \/ e = Demo.Y).
  { unfold Demo.world, Demo.registry in Hj. simpl in Hj.
    destruct (decide (j = "X")) as [->|Hx].
    - rewrite lookup_insert_eq in Hj. left. congruence.
    - rewrite lookup_insert_ne in Hj by congruence.
      destruct (decide (j = "Y")) as [->|Hy].
      + rewrite lookup_insert_eq in Hj. right. congruence.
      + rewrite lookup_insert_ne in Hj by congruence.
        rewrite lookup_empty in Hj. discriminate. }
  destruct Hin as [-> | ->]; simpl; congruence.
Qed.

Lemma create_registers_witness :
  let r := SmartAPIHandler.post Demo.C (Some "bob") "https://example.org/new.json" false
             Demo.world in
  outcome r = Replied [("success", JBool true);
                       ("_id", JStr "https://example.org/new.json")] /\
  store (snd r)
  = <["https://example.org/new.json" :=
        Spec.with_content (created Demo.C "bob" "https://example.org/new.json" "3.0.0")
          "openapi: 3.0.0" "3.0.0" "VALID" 200]> Demo.registry /\
  exists evs,
    log (snd r)
    = log Demo.world
      ++ [EvDownload "https://example.org/new.json";
          EvRefresh "https://example.org/new.json";
          EvSave "https://example.org/new.json"] ++ evs /\
    forallb is_notification evs = true.
Proof.
  apply (create_registers Demo.C Demo.world "bob" "https://example.org/new.json" "3.0.0"
           (Spec.with_content (created Demo.C "bob" "https://example.org/new.json" "3.0.0")
              "openapi: 3.0.0" "3.0.0" "VALID" 200)
           (Some 200) "https://example.org/new.json").
  - apply demo_registry_urls; discriminate.
  - reflexivity.
  - reflexivity.
  - reflexivity.
  - reflexivity.
Defined.

(** ** Refresh and deletion *)

Section RefreshDelete.

Context (C : Controller).

(** X10. In a refresh the save is not guarded: when it raises, the
    exception escapes the handler as it is (it is not turned into a 400 as
    in a slug update), after the download and the refresh were made, and
    the store is as it was. *)
Theorem refresh_save_error_escapes (w : World) (login i : string) (e e' : SmartAPI)
    (code : option Z) (err : Exc) :
  store w !! i = Some e ->
  username e = login ->
  smartapi_refresh C e (fetch C (url e)) = (e', code) ->
  smartapi_save C e' (store w) = inl err ->
  SmartAPIHandler.put C (Some login) i None w
  = (Raised err,
     logged w [EvDownload (url e); EvRefresh (_id e); EvSave (_id e')]).
Proof.
  intros Hi Hu Hr Hs. unfold_handlers. rewrite Hi. simpl.
  rewrite Hu, String.eqb_refl. simpl.
  destruct (fetch_error C (fetch C (url e))); simpl;
    rewrite Hr; simpl; rewrite Hs; simpl;
    unfold logged, with_event; simpl; by rewrite <- !app_assoc.
Qed.

(** X11. A deletion by the owner is answered with [success: true] and the
    id the deletion returned, and leaves the store the deletion made; when
    the deletion raises a [ControllerError] the request fails with 400 and
    the message of the error, and the store is as it was. *)
Theorem delete_by_owner (w : World) (login i : string) (e : SmartAPI) :
  store w !! i = Some e ->
  username e = login ->
  let r := SmartAPIHandler.delete C (Some login) i w in
  (forall j st',
     smartapi_delete C e (store w) = inr (j, st') ->
     outcome r = Replied [("success", JBool true); ("_id", JStr j)] /\
     store (snd r) = st') /\
  (forall err,
     smartapi_delete C e (store w) = inl err ->
     is_ControllerError err = true ->
     outcome r = Failed 400 (Some (exc_str err)) /\
     store (snd r) = store w) /\
  log (snd r) = log w ++ [EvDelete (_id e)].
Proof.
  intros Hi Hu. unfold_handlers. rewrite Hi. simpl.
  rewrite Hu, String.eqb_refl. simpl.
  split; [|split].
  - intros j st' ->. simpl. auto.
  - intros err -> Herr. simpl. rewrite Herr. simpl. auto.
  - repeat (break_match; simpl); reflexivity.
Qed.

(** X12. An uptime check answered with a body was made: the user was
    logged in and owns the entry, the request had no body, and the check
    of the entry was called. *)
Theorem uptime_reply_means_checked (w : World) (user : option string)
    (body i : string) (p : Payload) :
  outcome (UptimeHandler.get C user body i w) = Replied p ->
  exists login e,
    user = Some login /\ body = "" /\
    store w !! i = Some e /\ username e = login /\
    EvCheck (_id e) ∈ log (snd (UptimeHandler.get C user body i w)).
Proof.
  unfold_handlers. destruct user as [login|]; simpl; [|discriminate].
  destruct body as [|c body]; simpl; [|discriminate].
  destruct (Str.truthy i); simpl; [|discriminate].
  destruct (store w !! i) as [e|] eqn:Hi; simpl; [|discriminate].
  destruct (String.eqb_spec (username e) login) as [Hu|Hu]; simpl; [|discriminate].
  intros _. exists login, e. repeat split; try assumption.
  repeat (break_match; simpl); unfold with_event; simpl;
    rewrite ?elem_of_app, ?elem_of_cons; auto.
Qed.

End RefreshDelete.

Lemma refresh_save_error_escapes_witness :
  SmartAPIHandler.put Outage.C (Some "alice") "X" None Demo.world
  = (Raised (ControllerError "index is read-only"),
     logged Demo.world [EvDownload "https://example.org/api.json";
                        EvRefresh "X"; EvSave "X"]).
Proof.
  apply (refresh_save_error_escapes Outage.C Demo.world "alice" "X" Demo.X
           (Spec.with_status Demo.X "NOFILE" 404) (Some 404)
           (ControllerError "index is read-only"));
    reflexivity.
Defined.

Lemma delete_by_owner_witness :
  let r := SmartAPIHandler.delete Demo.C (Some "alice") "X" Demo.world in
  (outcome r = Replied [("success", JBool true); ("_id", JStr "X")] /\
   store (snd r) = base.delete "X" Demo.registry) /\
  log (snd r) = [EvDelete "X"].
Proof.
  destruct (delete_by_owner Demo.C Demo.world "alice" "X" Demo.X eq_refl eq_refl)
    as (Hok & _ & Hlog).
  split; [|exact Hlog].
  apply (Hok "X" (base.delete "X" Demo.registry)). reflexivity.
Defined.

Lemma uptime_reply_means_checked_witness :
  exists login e,
    Some "alice" = Some login /\ "" = "" /\
    store Demo.world !! "X" = Some e /\ username e = login /\
    EvCheck (_id e) ∈ log (snd (UptimeHandler.get Demo.C (Some "alice") "" "X" Demo.world)).
Proof.
  apply (uptime_reply_means_checked Demo.C Demo.world (Some "alice") "" "X"
           [("success", JBool true); ("details", JStr "invalid")]).
  vm_compute. reflexivity.
Defined.

(** ** Validation requests *)

Section Validate.

Context (C : Controller).

(** X13. A validation request, by GET or by POST, needs no login, never
    changes the store, and makes no call but at most one download, of the
    URL it was given; a POST without a URL (or with an empty one) validates
    the request body and downloads nothing. *)
Theorem validate_is_read_only (w : World) (body u : string) (args_url : option string) :
  (store (snd (ValidateHandler.get C body u w)) = store w /\
   (log (snd (ValidateHandler.get C body u w)) = log w \/
    log (snd (ValidateHandler.get C body u w)) = log w ++ [EvDownload u])) /\
  (store (snd (ValidateHandler.post C body args_url w)) = store w /\
   match args_url with
   | Some u' =>
       if decide (u' = "") then
         ValidateHandler.post C body args_url w = ValidateHandler.validate C body w
       else
         log (snd (ValidateHandler.post C body args_url w)) = log w ++ [EvDownload u']
   | None => ValidateHandler.post C body args_url w = ValidateHandler.validate C body w
   end) /\
  log (snd (ValidateHandler.validate C body w)) = log w.
Proof.
  unfold ValidateHandler.get, ValidateHandler.post, ValidateHandler.download,
         ValidateHandler.validate, download_async.
  split; [|split].
  - run_monad. repeat (break_match; simpl); auto.
  - split.
    + run_monad. repeat (break_match; simpl); auto.
    + destruct args_url as [[|c u']|]; simpl; [reflexivity| |reflexivity].
      run_monad. repeat (break_match; simpl); auto.
  - run_monad. repeat (break_match; simpl); auto.
Qed.

(** X14. When the validator raises nothing but [ControllerError] and
    [AssertionError], a validation request is answered either with
    [success: true] and the version of the document, or with 400 and a
    reason: a document that does not validate, a download that fails and a
    GET with a body all share the status 400. *)
Theorem validate_200_or_400 (w : World) (body u : string) (args_url : option string) :
  (forall content err,
     smartapi_validate C content = inl err ->
     is_ControllerError err || is_AssertionError err = true) ->
  forall r,
    r = ValidateHandler.get C body u w \/ r = ValidateHandler.post C body args_url w ->
    (exists v, outcome r
               = Replied [("success", JBool true);
                          ("details", JStr ("valid SmartAPI (" +:+ v +:+ ") metadata."))]) \/
    (exists reason, outcome r = Failed 400 (Some reason)).
Proof.
  intros Hraises r Hr.
  assert (Hval : forall content w0,
             (exists v, outcome (ValidateHandler.validate C content w0)
                        = Replied [("success", JBool true);
                                   ("details",
                                    JStr ("valid SmartAPI (" +:+ v +:+ ") metadata."))]) \/
             (exists reason, outcome (ValidateHandler.validate C content w0)
                             = Failed 400 (Some reason))).
  { intros content w0. unfold ValidateHandler.validate. run_monad.
    destruct (smartapi_validate C content) as [err|v] eqn:Hv; simpl.
    - rewrite (Hraises content err Hv). simpl. right. eauto.
    - left. eauto. }
  assert (Hdl : forall u0 w0,
             (exists reason, ValidateHandler.download C u0 w0
                             = (Raised (HTTPError 400 (Some reason)),
                                with_event (EvDownload u0) w0)) \/
             ValidateHandler.download C u0 w0
             = (Ok (file_raw (fetch C u0)), with_event (EvDownload u0) w0)).
  { intros u0 w0. unfold ValidateHandler.download, download_async. run_monad.
    destruct (fetch_error C (fetch C u0)); simpl; eauto. }
  destruct Hr as [-> | ->].
  - unfold ValidateHandler.get.
    destruct (Str.truthy body); [right; eexists; reflexivity|].
    unfold mbind, M_bind, bind.
    destruct (Hdl u w) as [(reason & ->) | ->]; [right; eauto | apply Hval].
  - unfold ValidateHandler.post. unfold mbind, M_bind, bind.
    destruct args_url as [u'|]; [destruct (Str.truthy u')|]; try apply Hval.
    destruct (Hdl u' w) as [(reason & ->) | ->]; [right; eauto | apply Hval].
Qed.

End Validate.

Lemma validate_200_or_400_witness :
  (exists v, outcome (ValidateHandler.post Demo.C "swagger: 2.0" None Demo.world)
             = Replied [("success", JBool true);
                        ("details", JStr ("valid SmartAPI (" +:+ v +:+ ") metadata."))]) \/
  (exists reason, outcome (ValidateHandler.post Demo.C "swagger: 2.0" None Demo.world)
                  = Failed 400 (Some reason)).
Proof.
  apply (validate_200_or_400 Demo.C Demo.world "swagger: 2.0" "" None).
  - intros content err. cbn. unfold Demo.validator.
    destruct (String.prefix "openapi" content); [discriminate|].
    intros [= <-]. reflexivity.
  - right. reflexivity.
Defined.


(** ** More on the relation query *)

Section Lookups.

Context (C : Controller).

(** X16. With [expand] false the taxonomy toolkit is never consulted and
    the loop cannot fail: whatever the toolkit would answer, the query runs,
    without any call before it, on the arguments in which each present
    value is wrapped in a single-element list and each absent or empty one
    is as it was. *)
Theorem plain_query_skips_toolkit (s o p : option string) (w : World) :
  let wrap (v : option string) :=
    match v with
    | Some x => if decide (x = "") then AStr x else AList [x]
    | None => ANone
    end in
  MetaKGQueryHandler.get C (parsed s o p false) w
  = MetaKGQueryHandler.super_get C (mkArgs (wrap s) (wrap o) (wrap p) false) w.
Proof.
  destruct s as [[|c1 s]|], o as [[|c2 o]|], p as [[|c3 p]|]; reflexivity.
Qed.

(** The lookups of the loop over a list of distinct fields, when none
    fails: one for each present field, in the order of the list. *)
Lemma expand_fields_lookups (fields : list Field) :
  NoDup fields ->
  forall (a : MetaKGArgs) (w : World),
  (forall f, f ∈ fields -> ~ unknown_term C a f) ->
  exists a',
    MetaKGQueryHandler.expand_fields C true fields a w
    = (Ok a',
       logged w (map EvDescendants
                   (omap (fun f => match getattr a f with
                                   | AStr v => if Str.truthy v then Some v else None
                                   | _ => None
                                   end) fields))) /\
    (forall f, f ∉ fields -> getattr a' f = getattr a f).
Proof.
  induction 1 as [|f0 fields Hnotin Hnodup IH]; intros a w Hknown.
  - exists a. simpl. by rewrite logged_nil.
  - simpl. unfold mbind, M_bind, bind.
    assert (Hrest : forall a1,
               (forall g, g <> f0 -> getattr a1 g = getattr a g) ->
               (forall f, f ∈ fields -> ~ unknown_term C a1 f) /\
               omap (fun f => match getattr a1 f with
                              | AStr v => if Str.truthy v then Some v else None
                              | _ => None
                              end) fields
               = omap (fun f => match getattr a f with
                                | AStr v => if Str.truthy v then Some v else None
                                | _ => None
                                end) fields).
    { intros a1 Hsame. split.
      - intros f Hf (v & msg & Hv & Hne & Hd).
        apply (Hknown f); [by right|]. exists v, msg.
        rewrite <- Hsame; [auto|]. intros ->. contradiction.
      - apply list_omap_ext, Forall_Forall2_diag, list.Forall_forall. intros f Hf.
        rewrite Hsame; [reflexivity|]. intros ->. contradiction. }
    destruct (getattr a f0) as [|v|l] eqn:Hv.
    + rewrite expand_field_skip by (by rewrite Hv).
      destruct (IH a w) as (a' & Hrun & Hout); [apply (Hrest a); auto|].
      exists a'. rewrite Hrun. split; [reflexivity|].
      intros f Hf. apply Hout. intros ?. apply Hf. by right.
    + destruct (decide (v = "")) as [->|Hne].
      * rewrite expand_field_skip by (by rewrite Hv).
        destruct (IH a w) as (a' & Hrun & Hout); [apply (Hrest a); auto|].
        exists a'. rewrite Hrun. split; [reflexivity|].
        intros f Hf. apply Hout. intros ?. apply Hf. by right.
      * rewrite (expand_field_lookup C a f0 v w Hv Hne).
        rewrite (truthy_nonempty v Hne).
        destruct (get_descendants C v) as [msg|terms] eqn:Hd.
        { exfalso. apply (Hknown f0); [by left|]. exists v, msg. auto. }
        assert (Hsame : forall g, g <> f0 ->
                                  getattr (setattr a f0 (AList terms)) g = getattr a g)
          by (intros g Hg; apply getattr_setattr_ne; congruence).
        destruct (Hrest _ Hsame) as (Hknown' & Heq).
        destruct (IH (setattr a f0 (AList terms)) (logged w [EvDescendants v]) Hknown')
          as (a' & Hrun & Hout).
        exists a'. rewrite Hrun, Heq, logged_logged. split; [reflexivity|].
        intros f Hf. rewrite Hout by (intros ?; apply Hf; by right).
        apply Hsame. intros ->. apply Hf. by left.
    + rewrite (expand_field_list C true a f0 l w Hv).
      destruct (IH a w) as (a' & Hrun & Hout); [apply (Hrest a); auto|].
      exists a'. rewrite Hrun. split; [reflexivity|].
      intros f Hf. apply Hout. intros ?. apply Hf. by right.
Qed.

(** X17. With [expand] true and no unknown term, the toolkit is asked once
    for each present field, in the order subject, object, predicate, and
    for no other value; the query runs after these lookups. *)
Theorem lookups_in_field_order (s o p : option string) (w : World) :
  let a := parsed s o p true in
  (forall f, ~ unknown_term C a f) ->
  exists a',
    MetaKGQueryHandler.get C a w
    = MetaKGQueryHandler.super_get C a'
        (logged w (map EvDescendants (present_values a))).
Proof.
  intros a Hknown.
  destruct (expand_fields_lookups [subject; object; predicate] fields_NoDup a w)
    as (a' & Hrun & _).
  { intros f _. apply Hknown. }
  exists a'. unfold MetaKGQueryHandler.get. unfold mbind at 1, M_bind at 1, bind at 1.
  replace (arg_expand a) with true by (by destruct s, o, p).
  rewrite Hrun. reflexivity.
Qed.

End Lookups.

Lemma lookups_in_field_order_witness :
  exists a',
    MetaKGQueryHandler.get Demo.C (parsed (Some "gene") (Some "") (Some "disease") true)
      Demo.world
    = MetaKGQueryHandler.super_get Demo.C a'
        (logged Demo.world [EvDescendants "gene"; EvDescendants "disease"]).
Proof.
  apply (lookups_in_field_order Demo.C (Some "gene") (Some "") (Some "disease") Demo.world).
  intros f (v & msg & Hv & Hne & Hd).
  destruct f; vm_compute in Hv; injection Hv as <-;
    first [congruence | vm_compute in Hd; discriminate].
Defined.

(** ** Uptime checks and rejected creations *)

Section Uptime.

Context (C : Controller).

(** X19. An uptime check by the owner, by GET without a body or by POST,
    checks the entry, saves the entry as the check left it, and answers
    [success: true] with the status the check reported. *)
Theorem uptime_check_reports (w : World) (login i status : string) (e e' : SmartAPI)
    (j : string) (st' : gmap string SmartAPI) :
  i <> "" ->
  store w !! i = Some e ->
  username e = login ->
  smartapi_check C e = inr (e', status) ->
  smartapi_save C e' (store w) = inr (j, st') ->
  let done :=
    (Ok tt, {| store := st';
               log := log w ++ [EvCheck (_id e); EvSave (_id e')];
               reply := Some (Body [("success", JBool true);
                                    ("details", JStr status)]) |}) in
  UptimeHandler.get C (Some login) "" i w = done /\
  UptimeHandler.post C (Some login) i w = done.
Proof.
  intros Hne Hi Hu Hcheck Hsave.
  split; unfold_handlers; rewrite (truthy_nonempty i Hne), Hi; simpl;
    rewrite Hu, String.eqb_refl; simpl; rewrite Hcheck; simpl; rewrite Hsave; simpl;
    unfold with_reply, with_store, with_event; simpl; by rewrite <- !app_assoc.
Qed.

(** X20. The request guards of the uptime check, for a logged-in user: a
    GET with a body fails with 400 "GET takes no request body.", also when
    the id is missing; without an id a GET fails with 400 "Missing required
    parameter: id" and a POST with 400 "Missing required form field: id". In
    each case the entry is not looked up and the world is as it was. *)
Theorem uptime_request_guards (w : World) (login body i : string) :
  (body <> "" ->
   UptimeHandler.get C (Some login) body i w
   = (Raised (HTTPError 400 (Some "GET takes no request body.")), w)) /\
  UptimeHandler.get C (Some login) "" "" w
  = (Raised (HTTPError 400 (Some "Missing required parameter: id")), w) /\
  UptimeHandler.post C (Some login) "" w
  = (Raised (HTTPError 400 (Some "Missing required form field: id")), w).
Proof.
  split; [|split; reflexivity].
  intros Hbody. unfold UptimeHandler.get, github_authenticated.
  rewrite (truthy_nonempty body Hbody). reflexivity.
Qed.

(** X21. A create request of a logged-in user for a URL that is not
    registered fails with 400, dry run or not, when the download fails (the
    reason is the download error, and the document is not validated) and
    when the document does not validate (the reason is the validation
    error); the download is the only call and the store is as it was. *)
Theorem create_rejects_bad_document (w : World) (login u : string) (dryrun : bool) :
  (forall j e, store w !! j = Some e -> url e <> u) ->
  let r := SmartAPIHandler.post C (Some login) u dryrun w in
  (forall msg,
     fetch_error C (fetch C u) = Some msg ->
     r = (Raised (HTTPError 400 (Some msg)), logged w [EvDownload u])) /\
  (forall err,
     fetch_error C (fetch C u) = None ->
     smartapi_validate C (file_raw (fetch C u)) = inl err ->
     is_ControllerError err || is_AssertionError err = true ->
     r = (Raised (HTTPError 400 (Some (exc_str err))), logged w [EvDownload u])).
Proof.
  intros Hfree r. subst r.
  unfold SmartAPIHandler.post, github_authenticated.
  unfold mbind, M_bind, bind, get_store.
  rewrite (find_unregistered (store w) u Hfree).
  rewrite bool_decide_eq_false_2 by (intros [? ?]; discriminate).
  unfold SmartAPIHandler.validated, download_async. run_monad.
  split.
  - intros msg ->. reflexivity.
  - intros err -> -> Hcaught. simpl. rewrite Hcaught. reflexivity.
Qed.

End Uptime.

Lemma uptime_check_reports_witness :
  let done :=
    (Ok tt, {| store := <["X" := Spec.with_status Demo.X "INVALID" 404]> Demo.registry;
               log := [EvCheck "X"; EvSave "X"];
               reply := Some (Body [("success", JBool true);
                                    ("details", JStr "invalid")]) |}) in
  UptimeHandler.get Demo.C (Some "alice") "" "X" Demo.world = done /\
  UptimeHandler.post Demo.C (Some "alice") "X" Demo.world = done.
Proof.
  apply (uptime_check_reports Demo.C Demo.world "alice" "X" "invalid" Demo.X
           (Spec.with_status Demo.X "INVALID" 404) "X"
           (<["X" := Spec.with_status Demo.X "INVALID" 404]> Demo.registry));
    (reflexivity || discriminate).
Defined.

Lemma uptime_request_guards_witness :
  UptimeHandler.get Demo.C (Some "alice") "{}" "" Demo.world
  = (Raised (HTTPError 400 (Some "GET takes no request body.")), Demo.world).
Proof.
  apply (proj1 (uptime_request_guards Demo.C Demo.world "alice" "{}" "")).
  discriminate.
Defined.

Lemma create_rejects_bad_document_witness :
  SmartAPIHandler.post Demo.C (Some "bob") "https://example.org/none.json" false Demo.world
  = (Raised (HTTPError 400 (Some "download failed")),
     logged Demo.world [EvDownload "https://example.org/none.json"]).
Proof.
  apply (proj1 (create_rejects_bad_document Demo.C Demo.world "bob"
                  "https://example.org/none.json" false
                  ltac:(apply demo_registry_urls; discriminate))).
  reflexivity.
Defined.
